(** * perplexity-export-convert: the exporter, embedded and verified

    A shallow embedding of [src/perplexity-export-convert.py] (class
    [PerplexityExporter]) and the properties of its filename generation,
    its markdown rendering, its collection resolver and its run loop.

    Conventions of the embedding:
    - a Python [str] is the list of its Unicode code points ([pystr]);
    - a JSON object whose values are strings is a [gmap string pystr], and
      [d.get(k, v)] is [default v (d !! k)];
    - what CPython and the operating system provide (Unicode tables that are
      not fixed here, [datetime], the clock, the file system) is an
      interface the development is parametric in; a reference
      implementation of each interface is given for running examples;
    - [print] calls are not modelled. *)

From Stdlib Require Import ZArith NArith Lia Ascii String.
From stdpp Require Import gmap strings list.

Open Scope N_scope.

(** ** Python strings *)

Abbreviation pystr := (list N).

(** [py "abc"] is the Python string of an ASCII literal. *)
Definition py (s : string) : pystr :=
  map Ascii.N_of_ascii (String.list_ascii_of_string s).

Module Ch.
Definition tab := 9.
Definition nl := 10.
Definition cr := 13.
Definition space := 32.
Definition dquote := 34.
Definition hash := 35.
Definition lparen := 40.
Definition rparen := 41.
Definition star := 42.
Definition comma := 44.
Definition hyphen := 45.
Definition dot := 46.
Definition slash := 47.
Definition colon := 58.
Definition lt := 60.
Definition gt := 62.
Definition question := 63.
Definition at_sign := 64.
Definition upper_Z := 90.
Definition lbracket := 91.
Definition backslash := 92.
Definition rbracket := 93.
Definition underscore := 95.
Definition backtick := 96.
Definition pipe := 124.
End Ch.

(** [str.isspace] of one code point, which is also what [\s] of [re] matches
    in a [str] pattern and what [str.strip()] removes: CPython's
    [_PyUnicode_IsWhitespace]. *)
Definition is_space (c : N) : bool :=
  ((9 <=? c) && (c <=? 13)) || ((28 <=? c) && (c <=? 32))
  || (c =? 133) || (c =? 160) || (c =? 5760)
  || ((8192 <=? c) && (c <=? 8202))
  || (c =? 8232) || (c =? 8233) || (c =? 8239) || (c =? 8287) || (c =? 12288).

Definition is_ascii_letter (c : N) : bool :=
  ((97 <=? c) && (c <=? 122)) || ((65 <=? c) && (c <=? 90)).

Definition is_ascii_digit (c : N) : bool := (48 <=? c) && (c <=? 57).

(** [s.replace(a, b)] for one-character [a] and [b]. *)
Definition replace_char (a b : N) (s : pystr) : pystr :=
  map (fun c => if c =? a then b else c) s.

(** [s.replace(a, "")] for a one-character [a]. *)
Definition remove_char (a : N) (s : pystr) : pystr :=
  filter (fun c => c ≠ a) s.

(** [s.replace(a, r)] for a one-character [a] and any [r]. *)
Definition replace_char_str (a : N) (r : pystr) (s : pystr) : pystr :=
  flat_map (fun c => if c =? a then r else [c]) s.

Fixpoint lstrip_by (p : N -> bool) (s : pystr) : pystr :=
  match s with
  | [] => []
  | c :: s' => if p c then lstrip_by p s' else s
  end.

Definition rstrip_by (p : N -> bool) (s : pystr) : pystr :=
  reverse (lstrip_by p (reverse s)).

Definition strip_by (p : N -> bool) (s : pystr) : pystr :=
  rstrip_by p (lstrip_by p s).

(** [s.strip()] *)
Definition strip (s : pystr) : pystr := strip_by is_space s.

(** [s.strip('_')] *)
Definition strip_underscore (s : pystr) : pystr :=
  strip_by (fun c => c =? Ch.underscore) s.

(** [s[:n]] for a Python integer [n]: a negative [n] counts from the end. *)
Definition slice_to (n : Z) (s : pystr) : pystr :=
  if (0 <=? n)%Z then take (Z.to_nat n) s
  else take (length s - Z.to_nat (- n)) s.

(** [s.split('\n')]-style splitting on one character: never empty. *)
Fixpoint split_on (sep : N) (s : pystr) : list pystr :=
  match s with
  | [] => [[]]
  | c :: s' =>
      if c =? sep then [] :: split_on sep s'
      else match split_on sep s' with
           | l :: ls => (c :: l) :: ls
           | [] => [[c]]
           end
  end.

(** [sep.join(parts)] *)
Fixpoint join (sep : pystr) (parts : list pystr) : pystr :=
  match parts with
  | [] => []
  | [p] => p
  | p :: ps => p ++ sep ++ join sep ps
  end.

(** ** The regular expressions of the source

    Each pattern of the source is a character class, possibly under [+],
    so [re.sub] is a scan of the text. *)
Module Re.

(** [re.sub(r'[C]+', repl, s)]: every maximal run of characters of the
    class [p] is replaced by one [repl]. [inrun] says that the previous
    character belonged to the run being replaced. *)
Fixpoint sub_runs_from (p : N -> bool) (repl : pystr) (inrun : bool)
    (s : pystr) : pystr :=
  match s with
  | [] => []
  | c :: s' =>
      if p c then
        (if inrun then [] else repl) ++ sub_runs_from p repl true s'
      else c :: sub_runs_from p repl false s'
  end.

Definition sub_runs (p : N -> bool) (repl s : pystr) : pystr :=
  sub_runs_from p repl false s.

(** [re.sub(r'[C]', '', s)] *)
Definition delete_class (p : N -> bool) (s : pystr) : pystr :=
  filter (fun c => p c = false) s.

End Re.

(** The characters kept by [sanitize_text] and [sanitize_filename]: the
    class a-z A-Z 0-9 \s . , - _ ( ) @ and the double quote. The pattern of
    the source is the complement of this class under [+]. *)
Definition allowed_char (c : N) : bool :=
  is_ascii_letter c || is_ascii_digit c || is_space c
  || (c =? Ch.dot) || (c =? Ch.comma) || (c =? Ch.hyphen)
  || (c =? Ch.underscore) || (c =? Ch.lparen) || (c =? Ch.rparen)
  || (c =? Ch.dquote) || (c =? Ch.at_sign).

(** The characters [sanitize_filename] deletes as invalid in file names:
    the class < > : / \ | ? * and the double quote. *)
Definition fs_invalid_char (c : N) : bool :=
  (c =? Ch.lt) || (c =? Ch.gt) || (c =? Ch.colon) || (c =? Ch.dquote)
  || (c =? Ch.slash) || (c =? Ch.backslash) || (c =? Ch.pipe)
  || (c =? Ch.question) || (c =? Ch.star).

(** ** Configuration

    The TOML configuration, with its two-level sections flattened; an
    absent key is [None] and every reader applies the default of the
    source at the place of use. *)
Record config := Config {
  filename_max_length : option Z;
  filename_append_date : option bool;
  filename_date_format : option pystr;
  assets_location : option pystr;
  assets_relative_to_markdown : option bool;
  output_base_dir : option pystr;
  output_wikilinks : option bool;
  collections : option (gmap pystr pystr)
}.

(** [_default_config]: every key present with its default value. *)
Definition default_config : config :=
  {| filename_max_length := Some 128%Z;
     filename_append_date := Some false;
     filename_date_format := Some (py "%Y%m%dT%H%M%S");
     assets_location := Some (py "assets");
     assets_relative_to_markdown := Some false;
     output_base_dir := Some (py "output");
     output_wikilinks := Some false;
     collections := Some ∅ |}.

Definition max_length (c : config) : Z := default 128%Z (filename_max_length c).
Definition append_date (c : config) : bool := default false (filename_append_date c).
Definition date_format (c : config) : pystr :=
  default (py "%Y%m%dT%H%M%S") (filename_date_format c).

(** ** The Namer: [sanitize_text] and [sanitize_filename] *)

Definition sanitize_text (text : pystr) (for_metadata : bool) : pystr :=
  let text := replace_char Ch.cr Ch.space (replace_char Ch.nl Ch.space text) in
  let text := remove_char Ch.backtick text in
  let text :=
    if for_metadata
    then Re.sub_runs (fun c => negb (allowed_char c)) [Ch.underscore] text
    else text in
  let text := Re.sub_runs is_space [Ch.space] text in
  let text := Re.sub_runs (fun c => c =? Ch.underscore) [Ch.underscore] text in
  strip_underscore (strip text).

(** The title after every cleaning step of [sanitize_filename], before the
    length limit is applied. *)
Definition clean_title (title : pystr) : pystr :=
  let safe_title := replace_char Ch.cr Ch.space (replace_char Ch.nl Ch.space title) in
  let safe_title := remove_char Ch.backtick safe_title in
  let safe_title :=
    Re.sub_runs (fun c => negb (allowed_char c)) [Ch.underscore] safe_title in
  let safe_title := Re.delete_class fs_invalid_char safe_title in
  let safe_title := Re.sub_runs is_space [Ch.space] safe_title in
  let safe_title :=
    Re.sub_runs (fun c => c =? Ch.underscore) [Ch.underscore] safe_title in
  strip_underscore (strip safe_title).

Definition sanitize_filename (cfg : config) (title : pystr)
    (reserve_for_date : Z) : pystr :=
  let safe_title := clean_title title in
  let available_length := (max_length cfg - reserve_for_date)%Z in
  let safe_title :=
    if (Z.of_nat (length safe_title) >? available_length)%Z
    then strip_underscore (strip (slice_to available_length safe_title))
    else safe_title in
  match safe_title with
  | [] => py "untitled"
  | _ => safe_title
  end.


(** ** Exceptions and results *)

(** A raised exception: the name of its class and its message, the two
    parts the run loop formats into the error log. *)
Record exn := Exn { exn_type : pystr; exn_text : pystr }.

Inductive result (A : Type) : Type :=
| Ok (a : A)
| Raise (e : exn).
Arguments Ok {A} a.
Arguments Raise {A} e.

Definition result_bind {A B} (r : result A) (k : A -> result B) : result B :=
  match r with
  | Ok a => k a
  | Raise e => Raise e
  end.

(** ** What the Python runtime provides

    [datetime] values, the Unicode-aware string operations whose tables are
    not fixed here, and the system clock ([clock k] is what the [k]-th call
    of [datetime.now()] of the process returns). The two laws on
    [isdecimal] are facts of the Unicode database: the ASCII digits are
    decimal digits and the square brackets are not. *)
Class PyRuntime := {
  datetime : Type;
  isdecimal : N -> bool;
  str_lower : pystr -> pystr;
  fromisoformat : pystr -> result datetime;
  strftime : datetime -> pystr -> pystr;
  isoformat : datetime -> pystr;
  clock : nat -> datetime;
  isdecimal_ascii_digit : forall c, is_ascii_digit c = true -> isdecimal c = true;
  isdecimal_lbracket : isdecimal Ch.lbracket = false;
  isdecimal_rbracket : isdecimal Ch.rbracket = false
}.

Section Formatter.
Context `{RT : PyRuntime}.

(** *** Citation markers: the pattern [(\[\d+\])+] *)

(** Length of the match of [\d+\]] at the head of [s], the digits taken
    greedily, with the shorter alternatives tried after them. *)
Fixpoint match_digits_close (s : pystr) : option nat :=
  match s with
  | [] => None
  | c :: s' =>
      if isdecimal c then
        match match_digits_close s' with
        | Some n => Some (S n)
        | None =>
            match s' with
            | c' :: _ => if c' =? Ch.rbracket then Some 2%nat else None
            | [] => None
            end
        end
      else None
  end.

(** Length of the match of one group [\[\d+\]] at the head of [s]. *)
Definition match_citation (s : pystr) : option nat :=
  match s with
  | c :: s' => if c =? Ch.lbracket then S <$> match_digits_close s' else None
  | [] => None
  end.

(** Length of the match of [(\[\d+\])+] at the head of [s], 0 when there
    is none: groups are taken as long as one follows. A group has at
    least three characters, so the length of [s] is fuel enough. *)
Fixpoint match_citations_fuel (fuel : nat) (s : pystr) : nat :=
  match fuel with
  | O => 0%nat
  | S fuel' =>
      match match_citation s with
      | Some n => (n + match_citations_fuel fuel' (drop n s))%nat
      | None => 0%nat
      end
  end.

Definition match_citations (s : pystr) : nat :=
  match_citations_fuel (length s) s.

(** [re.sub(r'(\[\d+\])+', '', s)], scanning from the left: [skip] is the
    number of characters still to drop of the match in progress. *)
Fixpoint remove_citations_from (skip : nat) (s : pystr) : pystr :=
  match s with
  | [] => []
  | c :: s' =>
      match skip with
      | S k => remove_citations_from k s'
      | O =>
          match match_citations s with
          | S n => remove_citations_from n s'
          | O => c :: remove_citations_from 0 s'
          end
      end
  end.

Definition remove_citation_numbers (text : pystr) : pystr :=
  remove_citations_from 0 text.

(** *** Headings *)

(** [re.match(r'^(#+)\s', line)]: one or more [#], then a whitespace
    character. *)
Definition is_heading_line (line : pystr) : bool :=
  match line with
  | c :: rest =>
      (c =? Ch.hash)
      && match lstrip_by (fun c => c =? Ch.hash) rest with
         | c' :: _ => is_space c'
         | [] => false
         end
  | [] => false
  end.

(** [line.strip().startswith('#')] *)
Definition starts_with_hash (line : pystr) : bool :=
  match strip line with
  | c :: _ => c =? Ch.hash
  | [] => false
  end.

(** The body of the loop of [demote_headings]. *)
Definition demote_line (line : pystr) : pystr :=
  if starts_with_hash line then
    if is_heading_line line
    then Ch.hash :: remove_citation_numbers line
    else line
  else line.

Definition demote_headings (content : pystr) : pystr :=
  join [Ch.nl] (map demote_line (split_on Ch.nl content)).

(** The match of [\s*#\s] at the head of [s]: [#] is no whitespace, so
    the greedy [\s*] takes all the leading whitespace or the match fails. *)
Definition level1_marker_here (s : pystr) : bool :=
  match lstrip_by is_space s with
  | c :: c' :: _ => (c =? Ch.hash) && is_space c'
  | _ => false
  end.

(** [re.search(r'^\s*#\s', s, re.MULTILINE)]: with [MULTILINE], [^]
    matches at the start of the text and after every line feed. *)
Fixpoint search_level1_from (at_line_start : bool) (s : pystr) : bool :=
  (at_line_start && level1_marker_here s)
  || match s with
     | [] => false
     | c :: s' => search_level1_from (c =? Ch.nl) s'
     end.

Definition search_level1 (s : pystr) : bool := search_level1_from true s.

(** The cleaning of one answer in [create_markdown]. *)
Definition clean_answer (answer : pystr) : pystr :=
  if bool_decide (answer ≠ []) && search_level1 answer
  then demote_headings answer
  else remove_citation_numbers answer.

End Formatter.

(** ** The input payload *)

(** One JSON object with string values, keyed by the field names of the
    export. *)
Abbreviation jobject := (gmap string pystr).

(** One conversation of the export: its string fields and, under the key
    [entries], its list of entries ([None] when the key is absent). *)
Record conversation := Conversation {
  conv_fields : jobject;
  conv_entries : option (list jobject)
}.

(** The exporter object after [__init__]: the configuration and the export
    date, both fixed from then on. [self.errors] is the state the run loop
    threads. *)
Record exporter := Exporter {
  self_config : config;
  export_date : pystr
}.

Section Rendering.
Context `{RT : PyRuntime}.

(** [datetime.fromisoformat(s.replace("Z", "+00:00"))] *)
Definition parse_timestamp (s : pystr) : result datetime :=
  fromisoformat (replace_char_str Ch.upper_Z (py "+00:00") s).

Definition format_date (self : exporter) (iso_datetime : pystr) : pystr :=
  match iso_datetime with
  | [] => []
  | _ =>
      match parse_timestamp iso_datetime with
      | Ok dt => strftime dt (date_format (self_config self))
      | Raise _ => iso_datetime
      end
  end.

(** The heading of one answer, as [create_markdown] assembles it. [mode]
    is the mode of the conversation. *)
Definition answer_heading (self : exporter) (mode : pystr) (entry : jobject)
    : pystr :=
  let entry_mode := default mode (entry !! "mode") in
  let entry_created_at := default [] (entry !! "created_at") in
  let query_status := default (py "COMPLETED") (entry !! "query_status") in
  py "# Answer (" ++ str_lower entry_mode
  ++ (match entry_created_at with
      | [] => []
      | _ => py " - " ++ format_date self entry_created_at
      end)
  ++ (if bool_decide (query_status ≠ py "COMPLETED")
      then py ") " ++ query_status
      else py ")").

(** The four lines one entry appends to [lines]. *)
Definition entry_lines (self : exporter) (mode : pystr) (entry : jobject)
    : list pystr :=
  let query := default [] (entry !! "query") in
  let answer := default [] (entry !! "answer") in
  [ Ch.nl :: py "# Query";
    query;
    Ch.nl :: answer_heading self mode entry;
    clean_answer answer ].

(** The date of the metadata block. *)
Definition metadata_date (created_at : pystr) : result pystr :=
  match created_at with
  | [] => Ok (py "Unknown")
  | _ => result_bind (parse_timestamp created_at)
           (fun dt => Ok (strftime dt (py "%Y-%m-%d")))
  end.

Definition create_markdown (self : exporter) (conv : conversation)
    : result pystr :=
  let title := default (py "Untitled") (conv_fields conv !! "context_title") in
  let created_at := default [] (conv_fields conv !! "created_at") in
  let mode := default (py "UNKNOWN") (conv_fields conv !! "mode") in
  let clean_title := sanitize_text title true in
  result_bind (metadata_date created_at) (fun date_str =>
    let lines :=
      [ py "---";
        py "Date: " ++ date_str;
        py "title: " ++ clean_title;
        py "export date: " ++ export_date self;
        py "---" ] in
    let entries := default [] (conv_entries conv) in
    Ok (join [Ch.nl] (lines ++ concat (map (entry_lines self mode) entries)))).

(** *** The collection resolver *)

Definition get_collection_name (self : exporter)
    (collection_uuid : option pystr) : pystr :=
  match collection_uuid with
  | None => py "uncategorized"
  | Some uuid =>
      default uuid (default ∅ (collections (self_config self)) !! uuid)
  end.

End Rendering.

(** ** Paths

    A [pathlib] path is its tuple of [parts]: for an absolute path the
    first part is the root. Paths are those of [PurePosixPath]. *)
Abbreviation path := (list pystr).

(** The root of a path given as a string: one or at least three leading
    slashes give the root [/], exactly two give [//]. *)
Definition path_root (s : pystr) : list pystr :=
  match s with
  | c1 :: s1 =>
      if c1 =? Ch.slash then
        match s1 with
        | c2 :: s2 =>
            if c2 =? Ch.slash then
              match s2 with
              | c3 :: _ => if c3 =? Ch.slash then [py "/"] else [py "//"]
              | [] => [py "//"]
              end
            else [py "/"]
        | [] => [py "/"]
        end
      else []
  | [] => []
  end.

(** The parts below the root: empty parts and [.] are dropped. *)
Definition path_names (s : pystr) : list pystr :=
  filter (fun part => part ≠ [] ∧ part ≠ py ".") (split_on Ch.slash s).

(** [Path(s)] *)
Definition path_of_str (s : pystr) : path := path_root s ++ path_names s.

(** [p / s]: an absolute [s] replaces [p]. *)
Definition path_div (p : path) (s : pystr) : path :=
  match path_root s with
  | [] => p ++ path_names s
  | _ => path_of_str s
  end.

(** ** What the operating system provides

    The state of the file system and the three operations the exporter
    performs on it, each returning the exception it raises, if any, and
    the state it leaves. The laws are the two facts about files the
    collision check of the Namer rests on. *)
Class FileSystem := {
  fs : Type;
  (** [p.exists()] *)
  fs_exists : fs -> path -> bool;
  (** [p.mkdir(parents=True, exist_ok=True)] *)
  fs_mkdir : fs -> path -> option exn * fs;
  (** [p.write_text(content, encoding="utf-8")] *)
  fs_write_text : fs -> path -> pystr -> option exn * fs;
  (** [open(p, "w", encoding="utf-8")], the writes and the close *)
  fs_open_write : fs -> path -> pystr -> option exn * fs;
  fs_write_text_exists : forall d p content d',
    fs_write_text d p content = (None, d') -> fs_exists d' p = true;
  fs_mkdir_keeps : forall d q p,
    fs_exists d p = true -> fs_exists (fs_mkdir d q).2 p = true
}.

(** The calls the process makes to the file system, in order. *)
Inductive event :=
| EvMkdir (p : path)
| EvWriteText (p : path) (content : pystr)
| EvOpenWrite (p : path) (content : pystr).

Section World.
Context `{RT : PyRuntime} `{FS : FileSystem}.

(** The world around the process: how often the clock has been read, the
    file system, and the file-system calls made so far. *)
Record world := World {
  ticks : nat;
  disk : fs;
  trace : list event
}.

(** A computation that reads and changes the world and may raise. *)
Definition M (A : Type) : Type := world -> result A * world.

#[export] Instance M_ret : MRet M := fun A a w => (Ok a, w).

#[export] Instance M_bind : MBind M := fun A B k m w =>
  match m w with
  | (Ok a, w') => k a w'
  | (Raise e, w') => (Raise e, w')
  end.

Definition lift {A} (r : result A) : M A := fun w => (r, w).

(** The world after one more reading of the clock. *)
Definition advance (w : world) : world :=
  {| ticks := S (ticks w); disk := disk w; trace := trace w |}.

(** [datetime.now()] *)
Definition now : M datetime := fun w => (Ok (clock (ticks w)), advance w).

Definition of_status (r : option exn) : result unit :=
  match r with
  | None => Ok tt
  | Some e => Raise e
  end.

Definition path_exists (p : path) : M bool := fun w =>
  (Ok (fs_exists (disk w) p), w).

Definition mkdir (p : path) : M unit := fun w =>
  let '(r, d) := fs_mkdir (disk w) p in
  (of_status r,
   {| ticks := ticks w; disk := d; trace := trace w ++ [EvMkdir p] |}).

Definition write_text (p : path) (content : pystr) : M unit := fun w =>
  let '(r, d) := fs_write_text (disk w) p content in
  (of_status r,
   {| ticks := ticks w; disk := d; trace := trace w ++ [EvWriteText p content] |}).

Definition open_write (p : path) (content : pystr) : M unit := fun w =>
  let '(r, d) := fs_open_write (disk w) p content in
  (of_status r,
   {| ticks := ticks w; disk := d; trace := trace w ++ [EvOpenWrite p content] |}).

(** [PerplexityExporter.__init__], the configuration being loaded. *)
Definition init (cfg : config) : M exporter :=
  dt ← now;
  mret {| self_config := cfg; export_date := strftime dt (py "%Y-%m-%d") |}.

(** *** The Namer: [generate_unique_filename] *)

(** The timestamp suffix: of [created_at], or of the clock when
    [created_at] is empty. *)
Definition date_suffix_of (self : exporter) (created_at : pystr) : M pystr :=
  let date_format := date_format (self_config self) in
  match created_at with
  | [] => dt ← now; mret (strftime dt date_format)
  | _ => dt ← lift (parse_timestamp created_at); mret (strftime dt date_format)
  end.

Definition suffixed_filename (self : exporter) (title : pystr)
    (reserve : Z) (date_suffix : pystr) : pystr :=
  sanitize_filename (self_config self) title reserve
  ++ py "-" ++ date_suffix ++ py ".md".

Definition generate_unique_filename (self : exporter) (title created_at : pystr)
    (output_dir : path) : M pystr :=
  date_suffix ← date_suffix_of self created_at;
  if append_date (self_config self) then
    mret (suffixed_filename self title
            (Z.of_nat (length date_suffix) + 1) date_suffix)
  else
    let base_filename := sanitize_filename (self_config self) title 0 in
    let filename := base_filename ++ py ".md" in
    let filepath := path_div output_dir filename in
    collision ← path_exists filepath;
    if collision : bool then
      let truncate_amount := (Z.of_nat (length date_suffix) + 1 + 15)%Z in
      mret (suffixed_filename self title truncate_amount date_suffix)
    else mret filename.

End World.

(** ** The run loop *)

(** One element of [self.errors]. *)
Record error_entry := ErrorEntry {
  err_title : pystr;
  err_error : pystr;
  err_timestamp : pystr
}.

(** What the loop of [process_json_export] accumulates: [self.errors] and
    the two counters. *)
Record run_state := RunState {
  errors : list error_entry;
  successful : nat;
  failed : nat
}.

Definition initial_state : run_state :=
  {| errors := []; successful := 0; failed := 0 |}.

(** What is at [json_path]: nothing, a file [json.load] fails on, or a
    payload, whose key [conversations] may be absent. *)
Inductive json_file :=
| Missing
| Unreadable
| Loaded (conversations : option (list conversation)).

(** How the process ends: by returning from [main], by [sys.exit], or by an
    exception nothing catches. *)
Inductive outcome :=
| Returned
| SysExit (code : Z)
| Unhandled (e : exn).

Definition exit_status (o : outcome) : Z :=
  match o with
  | Returned => 0
  | SysExit code => code
  | Unhandled _ => 1
  end.

(** A string of [n] copies of [c]. *)
Definition rule_line (c : N) (n : nat) : pystr := replicate n c.

(** The text [write_error_log] writes. *)
Definition error_block (e : error_entry) : pystr :=
  py "Timestamp: " ++ err_timestamp e ++ [Ch.nl]
  ++ py "Conversation: " ++ err_title e ++ [Ch.nl]
  ++ py "Error: " ++ err_error e ++ [Ch.nl]
  ++ rule_line Ch.hyphen 80 ++ [Ch.nl; Ch.nl].

Definition error_log_text (errs : list error_entry) : pystr :=
  py "Perplexity Export Errors" ++ [Ch.nl]
  ++ rule_line 61 80 ++ [Ch.nl; Ch.nl]
  ++ concat (map error_block errs).

Section Run.
Context `{RT : PyRuntime} `{FS : FileSystem}.

Definition conv_title (conv : conversation) : pystr :=
  default (py "Untitled") (conv_fields conv !! "context_title").

(** The body of the [try] of the loop: one conversation, from its
    directory to its file. *)
Definition export_conversation (self : exporter) (output_base : path)
    (conv : conversation) : M unit :=
  let title := conv_title conv in
  let collection_uuid := conv_fields conv !! "collection_uuid" in
  let collection_name := get_collection_name self collection_uuid in
  let collection_dir := path_div output_base collection_name in
  _ ← mkdir collection_dir;
  let created_at := default [] (conv_fields conv !! "created_at") in
  filename ← generate_unique_filename self title created_at collection_dir;
  markdown_content ← lift (create_markdown self conv);
  let output_path := path_div collection_dir filename in
  write_text output_path markdown_content.

(** [f"{type(e).__name__}: {str(e)}"] *)
Definition error_message (e : exn) : pystr :=
  exn_type e ++ py ": " ++ exn_text e.

(** [log_error]: the entry is stamped with the clock. *)
Definition log_error (st : run_state) (title error : pystr) (w : world)
    : run_state * world :=
  ({| errors := errors st ++ [ {| err_title := title;
                                  err_error := error;
                                  err_timestamp := isoformat (clock (ticks w)) |} ];
      successful := successful st;
      failed := failed st |}, advance w).

(** One iteration of the loop, the [except] clause included. *)
Definition process_conversation (self : exporter) (output_base : path)
    (conv : conversation) (st : run_state) (w : world) : run_state * world :=
  match export_conversation self output_base conv w with
  | (Ok _, w') =>
      ({| errors := errors st;
          successful := S (successful st);
          failed := failed st |}, w')
  | (Raise e, w') =>
      let '(st', w'') := log_error st (conv_title conv) (error_message e) w' in
      ({| errors := errors st';
          successful := successful st';
          failed := S (failed st') |}, w'')
  end.

Fixpoint process_conversations (self : exporter) (output_base : path)
    (convs : list conversation) (st : run_state) (w : world)
    : run_state * world :=
  match convs with
  | [] => (st, w)
  | conv :: rest =>
      let '(st', w') := process_conversation self output_base conv st w in
      process_conversations self output_base rest st' w'
  end.

Definition write_error_log (st : run_state) (output_base : path) : M unit :=
  match errors st with
  | [] => mret tt
  | _ => open_write (path_div output_base (py "ERRORS.log"))
           (error_log_text (errors st))
  end.

(** [process_json_export], given what is at [json_path]. *)
Definition process_json_export (self : exporter) (json : json_file)
    (output_base : path) (w : world) : outcome * run_state * world :=
  match json with
  | Missing | Unreadable => (SysExit 1, initial_state, w)
  | Loaded data =>
      let conversations := default [] data in
      let '(st, w') :=
        process_conversations self output_base conversations initial_state w in
      if (0 <? failed st)%nat then
        match write_error_log st output_base w' with
        | (Ok _, w'') => (Returned, st, w'')
        | (Raise e, w'') => (Unhandled e, st, w'')
        end
      else (Returned, st, w')
  end.

(** [run] *)
Definition run (self : exporter) (json : json_file) (w : world)
    : outcome * run_state * world :=
  match json with
  | Missing => (SysExit 1, initial_state, w)
  | _ =>
      let output_base :=
        path_of_str (default (py "output") (output_base_dir (self_config self))) in
      match mkdir output_base w with
      | (Ok _, w') => process_json_export self json output_base w'
      | (Raise e, w') => (Unhandled e, initial_state, w')
      end
  end.

(** [main], the arguments being parsed and the configuration loaded. *)
Definition main (cfg : config) (json : json_file) (w : world)
    : outcome * run_state * world :=
  match init cfg w with
  | (Ok self, w') => run self json w'
  | (Raise e, w') => (Unhandled e, initial_state, w')
  end.

End Run.

(** ** The asset links and the loading of the configuration *)

Definition assets_dir (c : config) : pystr :=
  default (py "assets") (assets_location c).
Definition relative_to_markdown (c : config) : bool :=
  default false (assets_relative_to_markdown c).
Definition use_wikilinks (c : config) : bool :=
  default false (output_wikilinks c).

Definition format_asset_link (self : exporter) (asset_path : pystr) : pystr :=
  let link_path :=
    if relative_to_markdown (self_config self)
    then assets_dir (self_config self) ++ py "/" ++ asset_path
    else py "../" ++ assets_dir (self_config self) ++ py "/" ++ asset_path in
  if use_wikilinks (self_config self)
  then py "![[" ++ link_path ++ py "]]"
  else py "![Asset](" ++ link_path ++ py ")".

(** What is at [config_path]: nothing, a file [tomllib.load] fails on, or a
    file it reads as a configuration. *)
Inductive config_file :=
| ConfigAbsent
| ConfigInvalid
| ConfigParsed (c : config).

(** [_load_config] *)
Definition load_config (f : config_file) : config :=
  match f with
  | ConfigAbsent => default_config
  | ConfigInvalid => default_config
  | ConfigParsed c => c
  end.

(** ** A reference runtime and a reference file system

    Implementations of the two interfaces on which the exporter can be run
    inside Rocq. The runtime reads the timestamps of the shape
    [YYYY-MM-DD] and [YYYY-MM-DDTHH:MM:SS], the latter with an optional
    fraction and an optional offset [+HH:MM], a subset of what
    [datetime.fromisoformat] reads; lower-casing and decimal digits are those
    of ASCII. The file system is a finite map from paths to files and
    directories. *)
Module Reference.

Record date_time := DateTime {
  year : N; month : N; day : N;
  hour : N; minute : N; second : N;
  microsecond : N;
  utc_offset : option (bool * N * N)
}.

(** The value of exactly [n] ASCII digits at the head of [s], and the rest. *)
Fixpoint read_digits (n : nat) (acc : N) (s : pystr) : option (N * pystr) :=
  match n with
  | O => Some (acc, s)
  | S n' =>
      match s with
      | c :: s' =>
          if is_ascii_digit c then read_digits n' (10 * acc + (c - 48)) s'
          else None
      | [] => None
      end
  end.

Definition expect (c : N) (s : pystr) : option pystr :=
  match s with
  | c' :: s' => if c' =? c then Some s' else None
  | [] => None
  end.

Definition is_leap (y : N) : bool :=
  ((y mod 4 =? 0) && negb (y mod 100 =? 0)) || (y mod 400 =? 0).

Definition days_in_month (y m : N) : N :=
  if m =? 2 then (if is_leap y then 29 else 28)
  else if (m =? 4) || (m =? 6) || (m =? 9) || (m =? 11) then 30
  else 31.

(** A fraction of one to six digits, as microseconds; [width] is the number
    of digits still allowed. *)
Fixpoint read_fraction (width : nat) (scale acc : N) (s : pystr) : N * pystr :=
  match width with
  | O => (acc, s)
  | S width' =>
      match s with
      | c :: s' =>
          if is_ascii_digit c
          then read_fraction width' (scale / 10) (acc + (c - 48) * scale) s'
          else (acc, s)
      | [] => (acc, s)
      end
  end.

Definition read_offset (s : pystr) : option (option (bool * N * N)) :=
  match s with
  | [] => Some None
  | sign :: s1 =>
      if (sign =? 43) || (sign =? Ch.hyphen) then
        '(hh, s2) ← read_digits 2 0 s1;
        s3 ← expect Ch.colon s2;
        '(mm, s4) ← read_digits 2 0 s3;
        match s4 with
        | [] => if (hh <? 24) && (mm <? 60)
                then Some (Some (sign =? 43, hh, mm)) else None
        | _ => None
        end
      else None
  end.

Definition read_time (y m d : N) (s : pystr) : option date_time :=
  '(hh, s1) ← read_digits 2 0 s;
  s2 ← expect Ch.colon s1;
  '(mi, s3) ← read_digits 2 0 s2;
  s4 ← expect Ch.colon s3;
  '(ss, s5) ← read_digits 2 0 s4;
  let '(us, s6) :=
    match s5 with
    | c :: (c' :: _) as s' =>
        if (c =? Ch.dot) && is_ascii_digit c'
        then read_fraction 6 100000 0 s' else (0, s5)
    | _ => (0, s5)
    end in
  off ← read_offset s6;
  if (hh <? 24) && (mi <? 60) && (ss <? 60)
  then Some (DateTime y m d hh mi ss us off) else None.

Definition read_datetime (s : pystr) : option date_time :=
  '(y, s1) ← read_digits 4 0 s;
  s2 ← expect Ch.hyphen s1;
  '(m, s3) ← read_digits 2 0 s2;
  s4 ← expect Ch.hyphen s3;
  '(d, s5) ← read_digits 2 0 s4;
  if (1 <=? y) && (1 <=? m) && (m <=? 12) && (1 <=? d) && (d <=? days_in_month y m)
  then
    match s5 with
    | [] => Some (DateTime y m d 0 0 0 0 None)
    | sep :: s6 =>
        if (sep =? 84) || (sep =? Ch.space) then read_time y m d s6 else None
    end
  else None.

Definition value_error (s : pystr) : exn :=
  {| exn_type := py "ValueError";
     exn_text := py "Invalid isoformat string: '" ++ s ++ py "'" |}.

Definition parse_iso (s : pystr) : result date_time :=
  match read_datetime s with
  | Some dt => Ok dt
  | None => Raise (value_error s)
  end.

(** The decimal digits of [n], most significant first; [fuel] bounds their
    number. *)
Fixpoint digits_of (fuel : nat) (n : N) (acc : pystr) : pystr :=
  match fuel with
  | O => acc
  | S fuel' =>
      let acc' := (48 + n mod 10) :: acc in
      if n / 10 =? 0 then acc' else digits_of fuel' (n / 10) acc'
  end.

Definition zero_pad (width : nat) (n : N) : pystr :=
  let ds := digits_of 20 n [] in
  replicate (width - length ds) 48 ++ ds.

(** [dt.strftime(format)] for the directives [%Y %m %d %H %M %S] and [%%]; every other
    character stands for itself. *)
Fixpoint format_time (dt : date_time) (format : pystr) : pystr :=
  match format with
  | [] => []
  | c :: rest =>
      if c =? 37 then
        match rest with
        | d :: rest' =>
            if d =? 89 then zero_pad 4 (year dt) ++ format_time dt rest'
            else if d =? 109 then zero_pad 2 (month dt) ++ format_time dt rest'
            else if d =? 100 then zero_pad 2 (day dt) ++ format_time dt rest'
            else if d =? 72 then zero_pad 2 (hour dt) ++ format_time dt rest'
            else if d =? 77 then zero_pad 2 (minute dt) ++ format_time dt rest'
            else if d =? 83 then zero_pad 2 (second dt) ++ format_time dt rest'
            else if d =? 37 then 37 :: format_time dt rest'
            else c :: format_time dt rest
        | [] => [c]
        end
      else c :: format_time dt rest
  end.

Definition iso_string (dt : date_time) : pystr :=
  format_time dt (py "%Y-%m-%dT%H:%M:%S")
  ++ (if microsecond dt =? 0 then [] else Ch.dot :: zero_pad 6 (microsecond dt))
  ++ match utc_offset dt with
     | Some (positive, hh, mm) =>
         (if positive then 43 else Ch.hyphen) :: zero_pad 2 hh
         ++ Ch.colon :: zero_pad 2 mm
     | None => []
     end.

Definition lower (s : pystr) : pystr :=
  map (fun c => if (65 <=? c) && (c <=? 90) then c + 32 else c) s.

(** The clock: one second per reading, from noon of 15 January 2025. *)
Definition wall_clock (k : nat) : date_time :=
  let k := N.of_nat k in
  DateTime 2025 1 15 12 ((k / 60) mod 60) (k mod 60) 0 None.

Lemma lbracket_no_digit : is_ascii_digit Ch.lbracket = false.
Proof. reflexivity. Qed.

Lemma rbracket_no_digit : is_ascii_digit Ch.rbracket = false.
Proof. reflexivity. Qed.

#[export] Instance runtime : PyRuntime := {|
  datetime := date_time;
  isdecimal := is_ascii_digit;
  str_lower := lower;
  fromisoformat := parse_iso;
  strftime := format_time;
  isoformat := iso_string;
  clock := wall_clock;
  isdecimal_ascii_digit := fun c H => H;
  isdecimal_lbracket := lbracket_no_digit;
  isdecimal_rbracket := rbracket_no_digit
|}.

End Reference.

Module MemFS.

Inductive node :=
| File (content : pystr)
| Dir.

(** The file system: what is at each path below the working directory,
    which is the empty path and always a directory. *)
Abbreviation state := (gmap path node).

Definition is_dir (d : state) (p : path) : bool :=
  match p with
  | [] => true
  | _ => match d !! p with
         | Some Dir => true
         | _ => false
         end
  end.

Definition is_file (d : state) (p : path) : bool :=
  match d !! p with
  | Some (File _) => true
  | _ => false
  end.

Definition exists_ (d : state) (p : path) : bool :=
  match p with
  | [] => true
  | _ => bool_decide (is_Some (d !! p))
  end.

(** The non-empty prefixes of [p], shortest first. *)
Definition ancestors_and_self (p : path) : list path :=
  map (fun k => take (S k) p) (seq 0 (length p)).

Definition os_error (name : string) (p : path) : exn :=
  {| exn_type := py name; exn_text := join (py "/") p |}.

(** [mkdir] with [parents=True, exist_ok=True]: fails when a file is in the
    way and changes nothing then. *)
Definition mkdir (d : state) (p : path) : option exn * state :=
  if existsb (is_file d) (ancestors_and_self p)
  then (Some (os_error "FileExistsError" p), d)
  else (None, foldr (fun q acc => <[q := Dir]> acc) d (ancestors_and_self p)).

(** Writing a file: its directory must exist and no directory may have its
    name. *)
Definition write (d : state) (p : path) (content : pystr) : option exn * state :=
  if is_dir d p then (Some (os_error "IsADirectoryError" p), d)
  else if is_dir d (removelast p) then (None, <[p := File content]> d)
  else (Some (os_error "FileNotFoundError" p), d).

Lemma write_exists (d : state) p content d' :
  write d p content = (None, d') -> exists_ d' p = true.
Proof.
  unfold write. destruct (is_dir d p); [discriminate|].
  destruct (is_dir d (removelast p)); [|discriminate].
  intros [= <-]. unfold exists_. destruct p; [reflexivity|].
  rewrite lookup_insert_eq. apply bool_decide_eq_true. eauto.
Qed.

Lemma insert_dirs_keeps (d : state) (qs : list path) p :
  is_Some (d !! p) ->
  is_Some (foldr (fun q acc => <[q := Dir]> acc) d qs !! p).
Proof.
  intros Hp. induction qs as [|q qs IH]; simpl; [exact Hp|].
  destruct (decide (q = p)) as [->|Hne].
  - rewrite lookup_insert_eq. eauto.
  - rewrite lookup_insert_ne by exact Hne. exact IH.
Qed.

Lemma mkdir_keeps (d : state) q p :
  exists_ d p = true -> exists_ (mkdir d q).2 p = true.
Proof.
  unfold mkdir. destruct (existsb _ _); simpl; [tauto|].
  unfold exists_. destruct p; [reflexivity|].
  rewrite !bool_decide_eq_true. apply insert_dirs_keeps.
Qed.

#[export] Instance file_system : FileSystem := {|
  fs := state;
  fs_exists := exists_;
  fs_mkdir := mkdir;
  fs_write_text := write;
  fs_open_write := write;
  fs_write_text_exists := write_exists;
  fs_mkdir_keeps := mkdir_keeps
|}.

(** A world whose working directory is empty and whose clock has not been
    read. *)
Definition empty_world : world :=
  {| ticks := 0; disk := (∅ : state); trace := [] |}.

End MemFS.

(** * The vocabulary of the properties

    The notions the properties are stated with, and the exporters and
    conversations the examples run on. *)

(** The characters a sanitized file name is made of: the kept class of
    [sanitize_filename] without the double quote, and with the space as its
    only whitespace. *)
Definition filename_char (c : N) : bool :=
  is_ascii_letter c || is_ascii_digit c
  || (c =? Ch.space) || (c =? Ch.dot) || (c =? Ch.comma) || (c =? Ch.hyphen)
  || (c =? Ch.underscore) || (c =? Ch.lparen) || (c =? Ch.rparen)
  || (c =? Ch.at_sign).

(** An opening bracket, or the end of the text, completes no group left
    open before it. *)
Definition starts_group_or_ends (s : pystr) : Prop :=
  s = [] \/ head s = Some Ch.lbracket.

(** A line feed before a piece of the text, or the start of the text. *)
Definition at_line_start (pre : pystr) : Prop :=
  pre = [] \/ last pre = Some Ch.nl.



(** The directory of a conversation. *)
Definition collection_dir_of (self : exporter) (output_base : path)
    (conv : conversation) : path :=
  path_div output_base
    (get_collection_name self (conv_fields conv !! "collection_uuid")).

(** The path of the error log. *)
Definition error_log_path (output_base : path) : path :=
  path_div output_base (py "ERRORS.log").

Section Vocabulary.
Context `{RT : PyRuntime}.

(** One citation marker, in the words of the specification: a bracketed
    integer. *)
Definition citation_token (t : pystr) : Prop :=
  exists ds, ds <> [] /\ Forall (fun c => isdecimal c = true) ds
             /\ t = Ch.lbracket :: ds ++ [Ch.rbracket].

(** A run of adjacent markers, with no separator. *)
Inductive citation_run : pystr -> Prop :=
| run_one t : citation_token t -> citation_run t
| run_more t r : citation_token t -> citation_run r -> citation_run (t ++ r).

(** The heading up to its closing parenthesis: the mode in lower case and,
    for a non-empty [created_at], the formatted timestamp. *)
Definition heading_opening (self : exporter) (mode : pystr) (entry : jobject)
    : pystr :=
  py "# Answer (" ++ str_lower (default mode (entry !! "mode"))
  ++ match entry !! "created_at" with
     | Some (c :: ts) => py " - " ++ format_date self (c :: ts)
     | _ => []
     end.


(** A call the loop may make: the creation of a directory, or the writing
    of the rendering of one of the conversations. *)
Definition loop_event (self : exporter) (convs : list conversation)
    (ev : event) : Prop :=
  match ev with
  | EvMkdir _ => True
  | EvWriteText _ content =>
      exists conv, conv ∈ convs /\ create_markdown self conv = Ok content
  | EvOpenWrite _ _ => False
  end.

(** The exporter [__init__] builds when the clock has been read [k] times. *)
Definition exporter_at (cfg : config) (k : nat) : exporter :=
  {| self_config := cfg; export_date := strftime (clock k) (py "%Y-%m-%d") |}.

End Vocabulary.

(** An exporter with the default configuration. *)
Definition default_exporter : exporter :=
  {| self_config := default_config; export_date := py "2025-01-15" |}.

(** An exporter whose table names the collection [abc]. *)
Definition work_exporter : exporter :=
  {| self_config :=
       {| filename_max_length := None; filename_append_date := None;
          filename_date_format := None; assets_location := None;
          assets_relative_to_markdown := None; output_base_dir := None;
          output_wikilinks := None;
          collections := Some {[ py "abc" := py "Work" ]} |};
     export_date := py "2025-01-15" |}.

(** An exporter configured to always append the timestamp. *)
Definition dated_exporter : exporter :=
  {| self_config :=
       {| filename_max_length := Some 128%Z; filename_append_date := Some true;
          filename_date_format := None; assets_location := None;
          assets_relative_to_markdown := None; output_base_dir := None;
          output_wikilinks := None; collections := None |};
     export_date := py "2025-01-15" |}.

(** A conversation titled [Notes] in the collection [uuid]. *)
Definition conv_in (uuid : pystr) : conversation :=
  {| conv_fields := {[ "collection_uuid" := uuid; "context_title" := py "Notes" ]};
     conv_entries := None |}.


(** The conversation of the end-to-end scenario of the specification. *)
Definition conv_rust : conversation :=
  {| conv_fields := {[ "context_title" := py "What is Rust? <v2>" ]};
     conv_entries :=
       Some [ ({[ "mode" := py "WEB"; "query_status" := py "COMPLETED";
                  "answer" := py "# Title" ++ [Ch.nl] ++ py "Body[1]" ]} : jobject) ] |}.


(** No two neighbours in [s] are both of the class [q]. *)
Fixpoint no_adjacent (q : N -> bool) (s : pystr) : bool :=
  match s with
  | a :: (b :: _) as rest => negb (q a && q b) && no_adjacent q rest
  | _ => true
  end.

(** The configuration of an empty TOML file: no key at all. *)
Definition empty_config : config :=
  {| filename_max_length := None; filename_append_date := None;
     filename_date_format := None; assets_location := None;
     assets_relative_to_markdown := None; output_base_dir := None;
     output_wikilinks := None; collections := None |}.

(** Two configurations with the same five settings of the export, each
    read with its default. *)
Definition same_settings (c1 c2 : config) : Prop :=
  max_length c1 = max_length c2
  /\ append_date c1 = append_date c2
  /\ date_format c1 = date_format c2
  /\ default ∅ (collections c1) = default ∅ (collections c2)
  /\ default (py "output") (output_base_dir c1)
     = default (py "output") (output_base_dir c2).


(** A character citation stripping may delete: a square bracket or a
    decimal digit. *)
Definition citation_char `{RT : PyRuntime} (c : N) : bool :=
  (c =? Ch.lbracket) || (c =? Ch.rbracket) || isdecimal c.

(** Whether [s] starts with a character of the class [q]. *)
Definition head_in (q : N -> bool) (s : pystr) : bool :=
  match s with
  | c :: _ => q c
  | [] => false
  end.

(** The two collapsing steps and the two strips that end [sanitize_text]
    and [sanitize_filename]. *)
Definition collapse_and_strip (s : pystr) : pystr :=
  strip_underscore
    (strip (Re.sub_runs (fun c => c =? Ch.underscore) [Ch.underscore]
              (Re.sub_runs is_space [Ch.space] s))).

(** Two exporters with the same settings and the same export date. *)
Definition same_exporter (self1 self2 : exporter) : Prop :=
  same_settings (self_config self1) (self_config self2)
  /\ export_date self1 = export_date self2.


(** * Properties *)

(** ** The Namer *)

Example sanitize_filename_rust :
  sanitize_filename default_config (py "What is Rust? <v2>") 0
  = py "What is Rust_ _v2".
Proof. reflexivity. Qed.

Section StripFacts.
Variable p : N -> bool.

Lemma lstrip_by_suffix s : exists pre, s = pre ++ lstrip_by p s /\ Forall (fun c => p c = true) pre.
Proof.
  induction s as [|c s IH]; simpl.
  - exists []. split; [reflexivity | constructor].
  - destruct (p c) eqn:Hc.
    + destruct IH as (pre & Heq & Hpre). exists (c :: pre). split.
      * simpl. congruence.
      * constructor; assumption.
    + exists []. split; [reflexivity | constructor].
Qed.

Lemma lstrip_by_head s : head (lstrip_by p s) = None \/ exists c, head (lstrip_by p s) = Some c /\ p c = false.
Proof.
  induction s as [|c s IH]; simpl; [left; reflexivity|].
  destruct (p c) eqn:Hc; [exact IH|]. right. exists c. split; [reflexivity | exact Hc].
Qed.

Lemma rstrip_by_prefix s : exists suf, s = rstrip_by p s ++ suf /\ Forall (fun c => p c = true) suf.
Proof.
  unfold rstrip_by. destruct (lstrip_by_suffix (reverse s)) as (pre & Heq & Hpre).
  exists (reverse pre). split.
  - rewrite <- reverse_app, <- Heq, reverse_involutive. reflexivity.
  - apply Forall_reverse. exact Hpre.
Qed.

Lemma Forall_lstrip_by (Q : N -> Prop) s : Forall Q s -> Forall Q (lstrip_by p s).
Proof.
  intros H. destruct (lstrip_by_suffix s) as (pre & Heq & _).
  rewrite Heq in H. apply Forall_app in H. tauto.
Qed.

Lemma Forall_rstrip_by (Q : N -> Prop) s : Forall Q s -> Forall Q (rstrip_by p s).
Proof.
  intros H. destruct (rstrip_by_prefix s) as (suf & Heq & _).
  rewrite Heq in H. apply Forall_app in H. tauto.
Qed.

Lemma Forall_strip_by (Q : N -> Prop) s : Forall Q s -> Forall Q (strip_by p s).
Proof. intros H. apply Forall_rstrip_by, Forall_lstrip_by, H. Qed.

Lemma rstrip_by_last s c : last (rstrip_by p s) = Some c -> p c = false.
Proof.
  unfold rstrip_by. rewrite last_reverse.
  destruct (lstrip_by_head (reverse s)) as [H | (c' & H & Hc')]; rewrite H; congruence.
Qed.

Lemma strip_by_head s c : head (strip_by p s) = Some c -> p c = false.
Proof.
  unfold strip_by. intros H.
  destruct (rstrip_by_prefix (lstrip_by p s)) as (suf & Heq & _).
  destruct (rstrip_by p (lstrip_by p s)) as [|c0 r]; [discriminate|].
  simpl in H. injection H as ->.
  destruct (lstrip_by_head s) as [Hn | (c' & Hh & Hc')]; rewrite Heq in *; simpl in *; congruence.
Qed.

Lemma strip_by_last s c : last (strip_by p s) = Some c -> p c = false.
Proof. apply rstrip_by_last. Qed.

End StripFacts.

Lemma Forall_sub_runs_from (P Q : N -> Prop) p repl inrun s :
  Forall P s ->
  (forall c, P c -> p c = false -> Q c) ->
  Forall Q repl ->
  Forall Q (Re.sub_runs_from p repl inrun s).
Proof.
  intros Hs Hkeep Hrepl. revert inrun.
  induction Hs as [|c s Hc Hs IH]; intros inrun; simpl; [constructor|].
  destruct (p c) eqn:Hpc.
  - apply Forall_app. split; [destruct inrun; [constructor | exact Hrepl] | apply IH].
  - constructor; [apply Hkeep; assumption | apply IH].
Qed.

Lemma Forall_slice_to (Q : N -> Prop) n s : Forall Q s -> Forall Q (slice_to n s).
Proof. intros H. unfold slice_to. destruct (0 <=? n)%Z; apply Forall_take, H. Qed.

Lemma Forall_delete_class (P : N -> Prop) p s :
  Forall P s -> Forall (fun c => P c /\ p c = false) (Re.delete_class p s).
Proof.
  unfold Re.delete_class. induction 1 as [|c s Hc Hs IH]; [constructor|].
  rewrite filter_cons. case_decide; [constructor; [split|]|]; assumption.
Qed.

Lemma filename_char_allowed c :
  allowed_char c = true -> fs_invalid_char c = false -> is_space c = false ->
  filename_char c = true.
Proof.
  unfold allowed_char, fs_invalid_char, filename_char.
  intros Ha Hi Hs. rewrite Hs in Ha.
  destruct (is_ascii_letter c), (is_ascii_digit c); simpl in *; try reflexivity.
  destruct (c =? Ch.dquote) eqn:Hq.
  - rewrite !orb_true_r in Hi. simpl in Hi.
    repeat (rewrite ?orb_true_r, ?orb_true_l in Hi; simpl in Hi). 
    destruct (c =? Ch.lt), (c =? Ch.gt), (c =? Ch.colon); discriminate.
  - rewrite orb_false_r in Ha.
    destruct (c =? Ch.dot), (c =? Ch.comma), (c =? Ch.hyphen), (c =? Ch.underscore),
      (c =? Ch.lparen), (c =? Ch.rparen), (c =? Ch.at_sign), (c =? Ch.space);
      simpl in *; try reflexivity; discriminate.
Qed.

Lemma clean_title_chars title : Forall (fun c => filename_char c = true) (clean_title title).
Proof.
  unfold clean_title, strip_underscore, strip.
  do 2 apply Forall_strip_by.
  apply Forall_sub_runs_from with (P := fun c => filename_char c = true);
    [| intros c Hc _; exact Hc | repeat constructor].
  apply Forall_sub_runs_from
    with (P := fun c => allowed_char c = true /\ fs_invalid_char c = false);
    [| intros c [Ha Hi] Hs; apply filename_char_allowed; assumption
     | repeat constructor].
  apply Forall_delete_class.
  apply Forall_sub_runs_from with (P := fun _ => True);
    [apply Forall_true; tauto | | repeat constructor].
  intros c _ Hc. apply negb_false_iff. exact Hc.
Qed.

Lemma sanitize_filename_chars cfg title reserve :
  Forall (fun c => filename_char c = true) (sanitize_filename cfg title reserve).
Proof.
  unfold sanitize_filename.
  assert (Hlim : Forall (fun c => filename_char c = true)
                   (if (Z.of_nat (length (clean_title title)) >? max_length cfg - reserve)%Z
                    then strip_underscore (strip (slice_to (max_length cfg - reserve) (clean_title title)))
                    else clean_title title)).
  { destruct (_ >? _)%Z; [|apply clean_title_chars].
    unfold strip_underscore, strip. do 2 apply Forall_strip_by.
    apply Forall_slice_to, clean_title_chars. }
  destruct (if (_ >? _)%Z then _ else _); [|exact Hlim].
  cbv [py String.list_ascii_of_string map]. repeat constructor.
Qed.

Lemma sanitize_filename_nonempty cfg title reserve :
  sanitize_filename cfg title reserve <> [].
Proof.
  unfold sanitize_filename. destruct (if (_ >? _)%Z then _ else _); discriminate.
Qed.

(** A title whose cleaning leaves nothing is named [untitled]. *)
Lemma sanitize_filename_untitled cfg title reserve :
  clean_title title = [] -> sanitize_filename cfg title reserve = py "untitled".
Proof.
  intros H. unfold sanitize_filename. rewrite H.
  destruct (_ >? _)%Z; [|reflexivity].
  unfold slice_to. destruct (0 <=? _)%Z; rewrite take_nil; reflexivity.
Qed.

(** No sanitized name starts or ends with an underscore. *)
Lemma sanitize_filename_underscore_ends cfg title reserve :
  head (sanitize_filename cfg title reserve) <> Some Ch.underscore
  /\ last (sanitize_filename cfg title reserve) <> Some Ch.underscore.
Proof.
  unfold sanitize_filename.
  assert (Hends : forall s, head (strip_underscore s) <> Some Ch.underscore
                            /\ last (strip_underscore s) <> Some Ch.underscore).
  { intros s. split; intros H.
    - apply strip_by_head in H. discriminate.
    - apply strip_by_last in H. discriminate. }
  destruct (_ >? _)%Z.
  - destruct (strip_underscore (strip (slice_to _ _))) eqn:E.
    + split; discriminate.
    + rewrite <- E. apply Hends.
  - assert (Hclean : head (clean_title title) <> Some Ch.underscore
                      /\ last (clean_title title) <> Some Ch.underscore)
      by (unfold clean_title; apply Hends).
    destruct (clean_title title); [split; discriminate | exact Hclean].
Qed.

(** C1. The claim: a sanitized file name has no leading or trailing space
    or underscore. [sanitize_filename] strips whitespace first and
    underscores second, so an underscore at an end that is followed
    (or preceded) by a space leaves that space at the end of the name: the
    title [_ a] is named [ a] and the title [a _] is named [a ]. *)
Theorem sanitize_filename_space_at_ends :
  sanitize_filename default_config (py "_ a") 0 = py " a"
  /\ sanitize_filename default_config (py "a _") 0 = py "a ".
Proof. split; reflexivity. Qed.

(** ** Citation markers *)

Section Citations.
Context `{RT : PyRuntime}.

Lemma match_digits_close_bounds s n :
  match_digits_close s = Some n -> (2 <= n <= length s)%nat.
Proof.
  revert n. induction s as [|c s IH]; intros n; simpl; [discriminate|].
  destruct (isdecimal c); [|discriminate].
  destruct (match_digits_close s) as [m|].
  - intros [= <-]. specialize (IH m eq_refl). lia.
  - destruct s as [|c' s]; [discriminate|].
    destruct (c' =? Ch.rbracket); [|discriminate].
    intros [= <-]. simpl. lia.
Qed.

Lemma match_citation_bounds s n :
  match_citation s = Some n -> (3 <= n <= length s)%nat.
Proof.
  destruct s as [|c s]; simpl; [discriminate|].
  destruct (c =? Ch.lbracket); [|discriminate].
  destruct (match_digits_close s) as [m|] eqn:E; [|discriminate].
  intros [= <-]. apply match_digits_close_bounds in E. lia.
Qed.

Lemma match_citation_head s n :
  match_citation s = Some n -> head s = Some Ch.lbracket.
Proof.
  destruct s as [|c s]; simpl; [discriminate|].
  destruct (c =? Ch.lbracket) eqn:E; [|discriminate].
  apply N.eqb_eq in E. subst c. reflexivity.
Qed.

(** Enough fuel is as good as more. *)
Lemma match_citations_fuel_enough fuel s :
  (length s <= fuel)%nat ->
  match_citations_fuel fuel s = match_citations s.
Proof.
  unfold match_citations. revert s.
  induction fuel as [fuel IH] using lt_wf_ind. intros s Hlen.
  destruct fuel as [|fuel].
  - destruct s; [reflexivity | simpl in Hlen; lia].
  - destruct s as [|c s]; [reflexivity|].
    cbn [length match_citations_fuel].
    destruct (match_citation (c :: s)) as [n|] eqn:E; [|reflexivity].
    pose proof (match_citation_bounds _ _ E) as Hn. cbn [length] in Hn, Hlen.
    assert (Hd : (length (drop n (c :: s)) <= length s)%nat)
      by (rewrite length_drop; cbn [length]; lia).
    rewrite (IH fuel) by lia. rewrite (IH (length s)) by lia. reflexivity.
Qed.

Lemma match_citations_unfold s :
  match_citations s =
  match match_citation s with
  | Some n => (n + match_citations (drop n s))%nat
  | None => 0%nat
  end.
Proof.
  destruct s as [|c s]; [reflexivity|].
  unfold match_citations at 1. cbn [length match_citations_fuel].
  destruct (match_citation (c :: s)) as [n|] eqn:E; [|reflexivity].
  pose proof (match_citation_bounds _ _ E) as Hn. cbn [length] in Hn.
  rewrite match_citations_fuel_enough; [reflexivity|].
  rewrite length_drop. cbn [length]. lia.
Qed.

Lemma remove_citations_from_skip k m s :
  (k <= length s)%nat ->
  remove_citations_from (k + m) s = remove_citations_from m (drop k s).
Proof.
  revert s. induction k as [|k IH]; intros s Hk; [reflexivity|].
  destruct s as [|c s]; [simpl in Hk; lia|].
  simpl in Hk. simpl. apply IH. lia.
Qed.

Lemma remove_citations_from_match s :
  remove_citations_from (match_citations s) s = remove_citation_numbers s.
Proof.
  unfold remove_citation_numbers.
  destruct (match_citations s) as [|j] eqn:E; [reflexivity|].
  destruct s as [|c s]; [discriminate|].
  simpl. rewrite E. reflexivity.
Qed.

(** [re.sub] read one group at a time: where a group matches it is
    dropped, elsewhere the character is kept. *)
Lemma remove_citation_numbers_unfold s :
  remove_citation_numbers s =
  match match_citation s with
  | Some n => remove_citation_numbers (drop n s)
  | None => match s with
            | [] => []
            | c :: s' => c :: remove_citation_numbers s'
            end
  end.
Proof.
  destruct s as [|c s]; [reflexivity|].
  unfold remove_citation_numbers at 1. cbn [remove_citations_from].
  rewrite match_citations_unfold.
  destruct (match_citation (c :: s)) as [n|] eqn:E; [|reflexivity].
  pose proof (match_citation_bounds _ _ E) as Hn. cbn [length] in Hn.
  destruct n as [|n]; [lia|]. cbn [Nat.add drop].
  rewrite remove_citations_from_skip by lia.
  apply remove_citations_from_match.
Qed.


Lemma match_digits_close_digits ds s :
  ds <> [] -> Forall (fun c => isdecimal c = true) ds ->
  match_digits_close (ds ++ Ch.rbracket :: s) = Some (S (length ds)).
Proof.
  intros Hne Hds. induction Hds as [|c ds Hc Hds IH]; [congruence|].
  cbn [app match_digits_close length]. rewrite Hc.
  destruct ds as [|c' ds].
  - cbn [app match_digits_close]. rewrite isdecimal_rbracket.
    rewrite N.eqb_refl. reflexivity.
  - rewrite IH by discriminate. reflexivity.
Qed.

Lemma match_citation_token t s :
  citation_token t -> match_citation (t ++ s) = Some (length t).
Proof.
  intros (ds & Hne & Hds & ->).
  cbn [app match_citation]. rewrite N.eqb_refl.
  rewrite <- app_assoc. cbn [app].
  rewrite match_digits_close_digits by assumption.
  cbn [length fmap option_fmap option_map]. rewrite length_app. cbn [length].
  f_equal. lia.
Qed.

Lemma citation_run_head r : citation_run r -> head r = Some Ch.lbracket.
Proof.
  induction 1 as [t (ds & _ & _ & ->) | t r (ds & _ & _ & ->) _ _]; reflexivity.
Qed.

Lemma remove_citation_numbers_token t s :
  citation_token t -> remove_citation_numbers (t ++ s) = remove_citation_numbers s.
Proof.
  intros Ht. rewrite remove_citation_numbers_unfold.
  rewrite (match_citation_token t s Ht). rewrite drop_app_length. reflexivity.
Qed.

Lemma remove_citation_numbers_run r s :
  citation_run r -> remove_citation_numbers (r ++ s) = remove_citation_numbers s.
Proof.
  induction 1 as [t Ht | t r Ht _ IH].
  - apply remove_citation_numbers_token, Ht.
  - rewrite <- app_assoc, remove_citation_numbers_token by exact Ht. exact IH.
Qed.

(** What follows a piece of text does not change a group matched inside
    it. *)
Lemma match_digits_close_app x s n :
  match_digits_close x = Some n -> match_digits_close (x ++ s) = Some n.
Proof.
  revert n. induction x as [|c x IH]; intros n; [discriminate|].
  cbn [app match_digits_close]. destruct (isdecimal c); [|discriminate].
  destruct (match_digits_close x) as [m|] eqn:E.
  - rewrite (IH m eq_refl). tauto.
  - destruct x as [|c' x]; [discriminate|].
    destruct (c' =? Ch.rbracket) eqn:Ec; [|discriminate].
    apply N.eqb_eq in Ec. subst c'.
    cbn [app match_digits_close]. rewrite isdecimal_rbracket.
    rewrite N.eqb_refl. tauto.
Qed.

Lemma match_digits_close_app_none x s :
  starts_group_or_ends s ->
  match_digits_close x = None -> match_digits_close (x ++ s) = None.
Proof.
  intros Hs. induction x as [|c x IH].
  - intros _. destruct Hs as [-> | Hs]; [reflexivity|].
    destruct s as [|c s]; [reflexivity|]. injection Hs as ->.
    cbn [app match_digits_close]. rewrite isdecimal_lbracket. reflexivity.
  - cbn [app match_digits_close]. destruct (isdecimal c); [|tauto].
    destruct (match_digits_close x) as [m|] eqn:E; [discriminate|].
    rewrite (IH eq_refl). destruct x as [|c' x].
    + intros _. destruct Hs as [-> | Hs]; [reflexivity|].
      destruct s as [|c' s]; [reflexivity|]. injection Hs as ->. reflexivity.
    + tauto.
Qed.

Lemma match_citation_app x s n :
  match_citation x = Some n -> match_citation (x ++ s) = Some n.
Proof.
  destruct x as [|c x]; [discriminate|].
  cbn [app match_citation]. destruct (c =? Ch.lbracket); [|discriminate].
  destruct (match_digits_close x) as [m|] eqn:E; [|discriminate].
  rewrite (match_digits_close_app _ s _ E). tauto.
Qed.

Lemma match_citation_app_none c x s :
  starts_group_or_ends s ->
  match_citation (c :: x) = None -> match_citation ((c :: x) ++ s) = None.
Proof.
  intros Hs. cbn [app match_citation]. destruct (c =? Ch.lbracket); [|tauto].
  destruct (match_digits_close x) as [m|] eqn:E; [discriminate|].
  rewrite (match_digits_close_app_none _ _ Hs E). tauto.
Qed.

(** Removal on a text and on what follows it are independent when what
    follows starts a group of its own. *)
Lemma remove_citation_numbers_app a s :
  starts_group_or_ends s ->
  remove_citation_numbers (a ++ s)
  = remove_citation_numbers a ++ remove_citation_numbers s.
Proof.
  intros Hs. remember (length a) as k eqn:Hk. revert a Hk.
  induction k as [k IH] using lt_wf_ind. intros a Hk.
  destruct a as [|c a]; [reflexivity|].
  rewrite (remove_citation_numbers_unfold ((c :: a) ++ s)).
  rewrite (remove_citation_numbers_unfold (c :: a)).
  destruct (match_citation (c :: a)) as [n|] eqn:E.
  - rewrite (match_citation_app _ s _ E).
    pose proof (match_citation_bounds _ _ E) as Hn.
    rewrite drop_app_le by lia.
    apply (IH (length (drop n (c :: a)))); [|reflexivity].
    rewrite length_drop. subst k. lia.
  - rewrite (match_citation_app_none _ _ _ Hs E). cbn [app].
    f_equal. apply (IH (length a)); [subst k; simpl; lia | reflexivity].
Qed.

Lemma remove_citation_numbers_no_bracket x s :
  Forall (fun c => c <> Ch.lbracket) x ->
  remove_citation_numbers (x ++ s) = x ++ remove_citation_numbers s.
Proof.
  induction 1 as [|c x Hc Hx IH]; [reflexivity|].
  rewrite remove_citation_numbers_unfold. cbn [app match_citation].
  destruct (c =? Ch.lbracket) eqn:E; [apply N.eqb_eq in E; contradiction|].
  f_equal. exact IH.
Qed.

Lemma remove_citation_numbers_plain x :
  Forall (fun c => c <> Ch.lbracket) x -> remove_citation_numbers x = x.
Proof.
  intros Hx. rewrite <- (app_nil_r x) at 1.
  rewrite remove_citation_numbers_no_bracket by exact Hx.
  apply app_nil_r.
Qed.

Lemma match_digits_close_nonnumeric body s :
  Forall (fun c => c <> Ch.rbracket) body ->
  ~ (body <> [] /\ Forall (fun c => isdecimal c = true) body) ->
  match_digits_close (body ++ Ch.rbracket :: s) = None.
Proof.
  induction 1 as [|c body Hc Hbody IH]; intros Hnum.
  - cbn [app match_digits_close]. rewrite isdecimal_rbracket. reflexivity.
  - cbn [app match_digits_close]. destruct (isdecimal c) eqn:Ec; [|reflexivity].
    destruct body as [|c' body].
    + exfalso. apply Hnum. split; [discriminate | repeat constructor; exact Ec].
    + rewrite IH.
      * cbn [app]. apply Forall_cons in Hbody as [Hc' _].
        destruct (c' =? Ch.rbracket) eqn:E; [apply N.eqb_eq in E; contradiction|].
        reflexivity.
      * intros [_ Hall]. apply Hnum. split; [discriminate|].
        constructor; assumption.
Qed.

(** A run of markers inside a text is dropped whole, and the text on
    either side is cleaned on its own. *)
Lemma remove_citation_numbers_drops_run a r b :
  citation_run r ->
  remove_citation_numbers (a ++ r ++ b)
  = remove_citation_numbers a ++ remove_citation_numbers b.
Proof.
  intros Hr.
  rewrite remove_citation_numbers_app
    by (right; pose proof (citation_run_head _ Hr) as Hh;
        destruct r; [discriminate | exact Hh]).
  rewrite remove_citation_numbers_run by exact Hr. reflexivity.
Qed.

(** C4. Citation stripping deletes every run of adjacent bracketed integers
    whole, wherever it stands in the text; a bracket pair whose content is
    not an integer stays as it is; and [result[1][2] more] becomes
    [result more]. *)
Theorem remove_citation_numbers_runs :
  (forall a r b, citation_run r ->
     remove_citation_numbers (a ++ r ++ b)
     = remove_citation_numbers a ++ remove_citation_numbers b)
  /\ (forall a body b,
       Forall (fun c => c <> Ch.lbracket /\ c <> Ch.rbracket) body ->
       ~ (body <> [] /\ Forall (fun c => isdecimal c = true) body) ->
       remove_citation_numbers (a ++ Ch.lbracket :: body ++ Ch.rbracket :: b)
       = remove_citation_numbers a
         ++ Ch.lbracket :: body ++ Ch.rbracket :: remove_citation_numbers b)
  /\ remove_citation_numbers (py "result[1][2] more") = py "result more".
Proof.
  split; [exact remove_citation_numbers_drops_run|]. split.
  - intros a body b Hbody Hnum.
    rewrite remove_citation_numbers_app by (right; reflexivity). f_equal.
    rewrite remove_citation_numbers_unfold. cbn [match_citation].
    rewrite N.eqb_refl.
    rewrite match_digits_close_nonnumeric;
      [| eapply Forall_impl; [exact Hbody | intros c [? ?]; assumption] | exact Hnum].
    cbn [fmap option_fmap option_map]. f_equal.
    rewrite remove_citation_numbers_no_bracket
      by (eapply Forall_impl; [exact Hbody | intros c [? ?]; assumption]).
    reflexivity.
  - change (py "result[1][2] more")
      with (py "result" ++ (py "[1]" ++ py "[2]") ++ py " more").
    rewrite remove_citation_numbers_drops_run.
    + rewrite !remove_citation_numbers_plain; [reflexivity | |];
        cbv [py String.list_ascii_of_string map]; repeat constructor; discriminate.
    + apply run_more; [|apply run_one].
      * exists (py "1"). split; [discriminate|]. split; [|reflexivity].
        repeat constructor. apply isdecimal_ascii_digit. reflexivity.
      * exists (py "2"). split; [discriminate|]. split; [|reflexivity].
        repeat constructor. apply isdecimal_ascii_digit. reflexivity.
Qed.

End Citations.

(** ** Headings *)

Lemma lstrip_by_all p ws s :
  Forall (fun c => p c = true) ws -> lstrip_by p (ws ++ s) = lstrip_by p s.
Proof.
  induction 1 as [|c ws Hc Hws IH]; [reflexivity|].
  cbn [app lstrip_by]. rewrite Hc. exact IH.
Qed.

Lemma rstrip_by_head p c s :
  p c = false -> head (rstrip_by p (c :: s)) = Some c.
Proof.
  intros Hc. destruct (rstrip_by_prefix p (c :: s)) as (suf & Heq & Hsuf).
  destruct (rstrip_by p (c :: s)) as [|c' r].
  - cbn [app] in Heq. subst suf. apply Forall_cons in Hsuf as [Hc' _]. congruence.
  - injection Heq as -> _. reflexivity.
Qed.

Lemma split_on_nonempty sep s : split_on sep s <> [].
Proof.
  destruct s as [|c s]; cbn [split_on]; [discriminate|].
  destruct (c =? sep); [discriminate|]. destruct (split_on sep s); discriminate.
Qed.

Lemma join_cons_cons sep l l' ls :
  join sep (l :: l' :: ls) = l ++ sep ++ join sep (l' :: ls).
Proof. reflexivity. Qed.

(** Splitting a text into lines and joining the lines gives the text. *)
Lemma join_split_on sep s : join [sep] (split_on sep s) = s.
Proof.
  induction s as [|c s IH]; [reflexivity|]. cbn [split_on].
  pose proof (split_on_nonempty sep s) as Hne.
  destruct (split_on sep s) as [|l0 ls]; [congruence|].
  destruct (c =? sep) eqn:Ec.
  - apply N.eqb_eq in Ec. subst c. rewrite join_cons_cons, IH. reflexivity.
  - destruct ls as [|l1 ls].
    + cbn [join] in *. congruence.
    + rewrite <- IH. reflexivity.
Qed.


Section Headings.
Context `{RT : PyRuntime}.





Lemma is_heading_line_starts_with_hash line :
  is_heading_line line = true -> starts_with_hash line = true.
Proof.
  destruct line as [|c rest]; [discriminate|]. cbn [is_heading_line].
  intros [Hc _]%andb_true_iff. apply N.eqb_eq in Hc. subst c.
  unfold starts_with_hash, strip, strip_by. cbn [lstrip_by].
  change (is_space Ch.hash) with false. cbn iota.
  pose proof (rstrip_by_head is_space Ch.hash rest eq_refl) as Hh.
  destruct (rstrip_by is_space (Ch.hash :: rest)); [discriminate|].
  injection Hh as ->. reflexivity.
Qed.

(** What [demote_headings] does to one line: a heading line gets one more
    [#] and loses its citation markers, any other line is kept. *)
Lemma demote_line_heading line :
  demote_line line =
  if is_heading_line line then Ch.hash :: remove_citation_numbers line else line.
Proof.
  unfold demote_line. destruct (is_heading_line line) eqn:E.
  - rewrite (is_heading_line_starts_with_hash _ E). reflexivity.
  - destruct (starts_with_hash line); reflexivity.
Qed.

(** A heading line in the words of the specification: one or more [#] at
    the start of the line, then whitespace. *)
Lemma is_heading_line_spec line :
  is_heading_line line = true <->
  exists k c rest, line = replicate (S k) Ch.hash ++ c :: rest /\ is_space c = true.
Proof.
  split.
  - destruct line as [|c0 line]; [discriminate|]. cbn [is_heading_line].
    intros [Hc0 H]%andb_true_iff. apply N.eqb_eq in Hc0. subst c0.
    destruct (lstrip_by_suffix (fun c => c =? Ch.hash) line) as (hs & Heq & Hhs).
    destruct (lstrip_by _ line) as [|c rest]; [discriminate|].
    exists (length hs), c, rest. split; [|exact H].
    cbn [replicate app]. f_equal. rewrite Heq. f_equal.
    clear Heq. induction Hhs as [|h hs Hh Hhs IH]; [reflexivity|].
    apply N.eqb_eq in Hh. subst h. cbn [length replicate]. f_equal. exact IH.
  - intros (k & c & rest & -> & Hc). cbn [replicate app is_heading_line].
    rewrite N.eqb_refl. cbn [andb].
    rewrite lstrip_by_all
      by (apply Forall_replicate, N.eqb_refl).
    cbn [lstrip_by]. destruct (c =? Ch.hash) eqn:E; [|exact Hc].
    apply N.eqb_eq in E. subst c. discriminate.
Qed.





End Headings.



Lemma remove_citation_numbers_runs_witness :
  remove_citation_numbers (RT := Reference.runtime)
    (py "see" ++ (py "[12]" ++ py "[3]") ++ py " it")
  = remove_citation_numbers (RT := Reference.runtime) (py "see")
    ++ remove_citation_numbers (RT := Reference.runtime) (py " it")
  /\ remove_citation_numbers (RT := Reference.runtime)
       (py "a" ++ Ch.lbracket :: py "note 1" ++ Ch.rbracket :: py "b")
     = remove_citation_numbers (RT := Reference.runtime) (py "a")
       ++ Ch.lbracket :: py "note 1"
       ++ Ch.rbracket :: remove_citation_numbers (RT := Reference.runtime) (py "b").
Proof.
  destruct (remove_citation_numbers_runs (RT := Reference.runtime))
    as (Hruns & Hkeep & _).
  split.
  - apply Hruns. apply run_more; [|apply run_one].
    + exists (py "12"). split; [discriminate|].
      split; [repeat constructor | reflexivity].
    + exists (py "3"). split; [discriminate|].
      split; [repeat constructor | reflexivity].
  - apply Hkeep.
    + repeat constructor; discriminate.
    + intros [_ Hdigits]. apply Forall_cons in Hdigits as [Hn _]. discriminate.
Defined.

(** ** The collection resolver and the export of one conversation *)

Section ExportConversation.
Context `{RT : PyRuntime} `{FS : FileSystem}.

Lemma date_suffix_of_world self created_at w :
  disk (date_suffix_of self created_at w).2 = disk w
  /\ trace (date_suffix_of self created_at w).2 = trace w.
Proof.
  unfold date_suffix_of. destruct created_at as [|c ts].
  - split; reflexivity.
  - unfold mbind, M_bind, lift.
    destruct (parse_timestamp (c :: ts)); split; reflexivity.
Qed.

(** Naming a file reads the clock and the file system and changes neither
    the files nor the record of calls. *)
Lemma generate_unique_filename_world self title created_at dir w :
  disk (generate_unique_filename self title created_at dir w).2 = disk w
  /\ trace (generate_unique_filename self title created_at dir w).2 = trace w.
Proof.
  unfold generate_unique_filename, mbind, M_bind.
  pose proof (date_suffix_of_world self created_at w) as Hw.
  destruct (date_suffix_of self created_at w) as [[suffix|e] w1]; [|exact Hw].
  cbn [snd] in Hw.
  destruct (append_date (self_config self)); [exact Hw|].
  unfold path_exists. destruct (fs_exists _ _); exact Hw.
Qed.

(** The export of one conversation, step by step. *)
Lemma export_conversation_steps self output_base conv w :
  let dir := collection_dir_of self output_base conv in
  export_conversation self output_base conv w =
  match mkdir dir w with
  | (Raise e, w1) => (Raise e, w1)
  | (Ok _, w1) =>
      match generate_unique_filename self (conv_title conv)
              (default [] (conv_fields conv !! "created_at")) dir w1 with
      | (Raise e, w2) => (Raise e, w2)
      | (Ok filename, w2) =>
          match create_markdown self conv with
          | Raise e => (Raise e, w2)
          | Ok content => write_text (path_div dir filename) content w2
          end
      end
  end.
Proof.
  cbv zeta. unfold export_conversation, mbind, M_bind, lift, collection_dir_of.
  destruct (mkdir _ w) as [[[]|e] w1]; [|reflexivity].
  destruct (generate_unique_filename _ _ _ _ w1) as [[filename|e] w2]; [|reflexivity].
  destruct (create_markdown self conv); reflexivity.
Qed.

(** The calls one conversation makes: its directory is created, and, when
    the naming and the rendering succeed, its file is written with the
    rendered text. *)
Lemma export_conversation_trace self output_base conv w :
  let dir := collection_dir_of self output_base conv in
  let w' := (export_conversation self output_base conv w).2 in
  trace w' = trace w ++ [EvMkdir dir]
  \/ exists filename content w1 w2,
       mkdir dir w = (Ok tt, w1)
       /\ generate_unique_filename self (conv_title conv)
            (default [] (conv_fields conv !! "created_at")) dir w1
          = (Ok filename, w2)
       /\ create_markdown self conv = Ok content
       /\ trace w' = trace w ++ [EvMkdir dir; EvWriteText (path_div dir filename) content].
Proof.
  cbv zeta. rewrite export_conversation_steps. cbv zeta.
  set (dir := collection_dir_of self output_base conv).
  assert (Hmk : trace (mkdir dir w).2 = trace w ++ [EvMkdir dir])
    by (unfold mkdir; destruct (fs_mkdir _ _); reflexivity).
  destruct (mkdir dir w) as [[[]|e] w1] eqn:Emk; cbn [snd] in Hmk; [|left; exact Hmk].
  pose proof (generate_unique_filename_world self (conv_title conv)
                (default [] (conv_fields conv !! "created_at")) dir w1) as [_ Hgen].
  destruct (generate_unique_filename _ _ _ _ w1) as [[filename|e] w2] eqn:Egen;
    cbn [snd] in Hgen |- *; [|left; congruence].
  destruct (create_markdown self conv) as [content|e] eqn:Hmd; [|left; cbn [snd]; congruence].
  right. exists filename, content, w1, w2.
  split; [reflexivity|]. split; [exact Egen|]. split; [reflexivity|].
  unfold write_text. destruct (fs_write_text _ _ _). cbn [snd trace].
  rewrite Hgen, Hmk, <- app_assoc. reflexivity.
Qed.

Lemma export_conversation_first_call self output_base conv w :
  exists evs,
    trace (export_conversation self output_base conv w).2
    = trace w ++ EvMkdir (collection_dir_of self output_base conv) :: evs.
Proof.
  destruct (export_conversation_trace self output_base conv w)
    as [H | (filename & content & w1 & w2 & _ & _ & _ & H)]; rewrite H; eauto.
Qed.

(** C9. A conversation without collection id goes to [uncategorized], an
    id of the configured table goes to the name the table gives, and any
    other id is returned unchanged; the directory of the conversation,
    the first thing its export creates, is the output directory joined
    with that name as it is. *)
Theorem get_collection_name_cases (self : exporter) :
  get_collection_name self None = py "uncategorized"
  /\ (forall uuid name,
        default ∅ (collections (self_config self)) !! uuid = Some name ->
        get_collection_name self (Some uuid) = name)
  /\ (forall uuid,
        default ∅ (collections (self_config self)) !! uuid = None ->
        get_collection_name self (Some uuid) = uuid)
  /\ (forall output_base conv w uuid,
        conv_fields conv !! "collection_uuid" = Some uuid ->
        default ∅ (collections (self_config self)) !! uuid = None ->
        exists evs,
          trace (export_conversation self output_base conv w).2
          = trace w ++ EvMkdir (path_div output_base uuid) :: evs).
Proof.
  split; [reflexivity|].
  split; [intros uuid name H; cbn [get_collection_name]; rewrite H; reflexivity|].
  split; [intros uuid H; cbn [get_collection_name]; rewrite H; reflexivity|].
  intros output_base conv w uuid Hid Hnone.
  destruct (export_conversation_first_call self output_base conv w) as [evs Hevs].
  exists evs. rewrite Hevs. unfold collection_dir_of. rewrite Hid.
  cbn [get_collection_name]. rewrite Hnone. reflexivity.
Qed.

End ExportConversation.

(** ** Paths *)


Lemma split_on_absent sep s : sep ∉ s -> split_on sep s = [s].
Proof.
  induction s as [|c s IH]; [reflexivity|].
  intros Hnot. apply not_elem_of_cons in Hnot as [Hc Hs].
  cbn [split_on]. destruct (c =? sep) eqn:E; [apply N.eqb_eq in E; congruence|].
  rewrite IH by exact Hs. reflexivity.
Qed.

(** Joining a directory with a plain name gives the entry of that name in
    the directory. *)
Lemma path_div_name (p : path) name :
  Ch.slash ∉ name -> name <> [] -> name <> py "." ->
  path_div p name = p ++ [name].
Proof.
  intros Hslash Hne Hdot. unfold path_div, path_names.
  assert (Hroot : path_root name = []).
  { destruct name as [|c name]; [reflexivity|]. cbn [path_root].
    apply not_elem_of_cons in Hslash as [Hc _].
    destruct (c =? Ch.slash) eqn:E; [apply N.eqb_eq in E; congruence | reflexivity]. }
  rewrite Hroot, split_on_absent by exact Hslash.
  rewrite filter_cons_True by (split; assumption). reflexivity.
Qed.

Section EmptyCollection.
Context `{RT : PyRuntime} `{FS : FileSystem}.


End EmptyCollection.

Lemma get_collection_name_cases_witness :
  get_collection_name work_exporter (Some (py "abc")) = py "Work"
  /\ get_collection_name work_exporter (Some (py "xyz")) = py "xyz"
  /\ exists evs,
       trace (export_conversation (RT := Reference.runtime)
                (FS := MemFS.file_system) work_exporter [py "output"]
                (conv_in (py "xyz")) MemFS.empty_world).2
       = trace MemFS.empty_world
         ++ EvMkdir (path_div [py "output"] (py "xyz")) :: evs.
Proof.
  destruct (get_collection_name_cases (RT := Reference.runtime)
              (FS := MemFS.file_system) work_exporter)
    as (_ & Hmapped & Hother & Hdir).
  split; [apply Hmapped; vm_compute; reflexivity|].
  split; [apply Hother; vm_compute; reflexivity|].
  apply Hdir; vm_compute; reflexivity.
Defined.


(** ** The answer heading *)

Section AnswerHeading.
Context `{RT : PyRuntime}.

Lemma answer_heading_opening self mode entry :
  answer_heading self mode entry
  = heading_opening self mode entry
    ++ (if bool_decide (default (py "COMPLETED") (entry !! "query_status")
                        ≠ py "COMPLETED")
        then py ") " ++ default (py "COMPLETED") (entry !! "query_status")
        else py ")").
Proof.
  unfold answer_heading, heading_opening. rewrite <- !app_assoc.
  do 2 f_equal. destruct (entry !! "created_at") as [[|c ts]|]; reflexivity.
Qed.

(** C5, as the code has it. The heading of an answer is [# Answer (], the
    mode in lower case (the mode of the entry, or of the conversation when
    the entry has none), then [ - ] and the formatted timestamp when the
    entry has a non-empty [created_at], then [)]; when the field
    [query_status] of the entry is present and is not [COMPLETED], it is
    [) ] and that status instead. A field named [status] is not read: it
    changes nothing. The heading is the third of the four lines of the
    entry. *)
Theorem answer_heading_parts (self : exporter) (mode : pystr) (entry : jobject) :
  (forall status,
     entry !! "query_status" = Some status -> status <> py "COMPLETED" ->
     answer_heading self mode entry
     = heading_opening self mode entry ++ py ") " ++ status)
  /\ (entry !! "query_status" = Some (py "COMPLETED")
      \/ entry !! "query_status" = None ->
      answer_heading self mode entry = heading_opening self mode entry ++ py ")")
  /\ (forall entry_mode, entry !! "mode" = Some entry_mode ->
        entry !! "created_at" = None ->
        heading_opening self mode entry = py "# Answer (" ++ str_lower entry_mode)
  /\ (entry !! "mode" = None -> entry !! "created_at" = None ->
      heading_opening self mode entry = py "# Answer (" ++ str_lower mode)
  /\ (forall status,
        answer_heading self mode (<["status" := status]> entry)
        = answer_heading self mode entry)
  /\ entry_lines self mode entry !! 2%nat
     = Some (Ch.nl :: answer_heading self mode entry).
Proof.
  split; [|split; [|split; [|split; [|split]]]].
  - intros status Hst Hne. rewrite answer_heading_opening, Hst. cbn [default].
    rewrite bool_decide_eq_true_2 by exact Hne. reflexivity.
  - intros [Hst | Hst]; rewrite answer_heading_opening, Hst; reflexivity.
  - intros entry_mode Hm Hc. unfold heading_opening. rewrite Hm, Hc.
    cbn [default]. rewrite app_nil_r. reflexivity.
  - intros Hm Hc. unfold heading_opening. rewrite Hm, Hc.
    cbn [default]. rewrite app_nil_r. reflexivity.
  - intros status. unfold answer_heading.
    rewrite !lookup_insert_ne by discriminate. reflexivity.
  - reflexivity.
Qed.

End AnswerHeading.

(** C5, as the claim words it, fails: the status of this entry is under
    the key [status] and is not [COMPLETED], and the heading closes with a
    bare parenthesis. *)
Lemma answer_heading_status_key :
  let entry : jobject := {[ "mode" := py "WEB"; "status" := py "FAILED" ]} in
  entry !! "status" = Some (py "FAILED")
  /\ answer_heading (RT := Reference.runtime) default_exporter (py "UNKNOWN") entry
     = py "# Answer (web)"
  /\ answer_heading (RT := Reference.runtime) default_exporter (py "UNKNOWN") entry
     <> py "# Answer (web) FAILED".
Proof. cbv zeta. split; [|split]; vm_compute; [reflexivity | reflexivity | discriminate]. Qed.

Lemma answer_heading_parts_witness :
  let entry : jobject :=
    {[ "mode" := py "WEB"; "query_status" := py "FAILED" ]} in
  answer_heading (RT := Reference.runtime) default_exporter (py "UNKNOWN") entry
  = heading_opening (RT := Reference.runtime) default_exporter (py "UNKNOWN") entry
    ++ py ") " ++ py "FAILED"
  /\ heading_opening (RT := Reference.runtime) default_exporter (py "UNKNOWN") entry
     = py "# Answer (" ++ Reference.lower (py "WEB")
  /\ answer_heading (RT := Reference.runtime) default_exporter (py "UNKNOWN")
       ({[ "created_at" := py "2024-05-06T07:08:09Z" ]} : jobject)
     = heading_opening (RT := Reference.runtime) default_exporter (py "UNKNOWN")
         ({[ "created_at" := py "2024-05-06T07:08:09Z" ]} : jobject) ++ py ")".
Proof.
  cbv zeta. split; [|split].
  - refine (proj1 (answer_heading_parts (RT := Reference.runtime) default_exporter
                     (py "UNKNOWN") _) (py "FAILED") _ _);
      [vm_compute; reflexivity | discriminate].
  - refine (proj1 (proj2 (proj2 (answer_heading_parts (RT := Reference.runtime)
                     default_exporter (py "UNKNOWN") _))) (py "WEB") _ _);
      vm_compute; reflexivity.
  - refine (proj1 (proj2 (answer_heading_parts (RT := Reference.runtime)
                     default_exporter (py "UNKNOWN") _)) _).
    right. vm_compute. reflexivity.
Defined.

(** ** Malformed timestamps *)

Section Malformed.
Context `{RT : PyRuntime} `{FS : FileSystem}.




Lemma mkdir_trace dir w : trace (mkdir dir w).2 = trace w ++ [EvMkdir dir].
Proof. unfold mkdir. destruct (fs_mkdir _ _). reflexivity. Qed.


Lemma process_conversation_raise self output_base conv st w e w' :
  export_conversation self output_base conv w = (Raise e, w') ->
  process_conversation self output_base conv st w
  = ({| errors := errors st ++ [ {| err_title := conv_title conv;
                                    err_error := error_message e;
                                    err_timestamp := isoformat (clock (ticks w')) |} ];
        successful := successful st;
        failed := S (failed st) |}, advance w').
Proof. intros H. unfold process_conversation. rewrite H. reflexivity. Qed.

Lemma process_conversation_ok self output_base conv st w w' :
  export_conversation self output_base conv w = (Ok tt, w') ->
  process_conversation self output_base conv st w
  = ({| errors := errors st;
        successful := S (successful st);
        failed := failed st |}, w').
Proof. intros H. unfold process_conversation. rewrite H. reflexivity. Qed.

(** The loop goes on after every conversation, failed or not. *)
Lemma process_conversations_cons self output_base conv rest st w :
  process_conversations self output_base (conv :: rest) st w
  = process_conversations self output_base rest
      (process_conversation self output_base conv st w).1
      (process_conversation self output_base conv st w).2.
Proof.
  cbn [process_conversations].
  destruct (process_conversation self output_base conv st w). reflexivity.
Qed.


End Malformed.



(** ** The run loop *)

Section Loop.
Context `{RT : PyRuntime} `{FS : FileSystem}.

(** One conversation is either exported and counted as successful, or its
    exception is caught and logged under its title. *)
Lemma process_conversation_cases self output_base conv st w :
  (exists w',
     export_conversation self output_base conv w = (Ok tt, w')
     /\ process_conversation self output_base conv st w
        = ({| errors := errors st;
              successful := S (successful st);
              failed := failed st |}, w'))
  \/ (exists e w',
        export_conversation self output_base conv w = (Raise e, w')
        /\ process_conversation self output_base conv st w
           = ({| errors := errors st ++ [ {| err_title := conv_title conv;
                                             err_error := error_message e;
                                             err_timestamp :=
                                               isoformat (clock (ticks w')) |} ];
                 successful := successful st;
                 failed := S (failed st) |}, advance w')).
Proof.
  destruct (export_conversation self output_base conv w) as [[[]|e] w'] eqn:E.
  - left. exists w'. split; [reflexivity|]. apply process_conversation_ok, E.
  - right. exists e, w'. split; [reflexivity|]. apply process_conversation_raise, E.
Qed.


(** The errors the loop adds: one per failure, each under the title of a
    conversation of the payload. *)
Lemma process_conversations_errors self output_base convs st w :
  let st' := (process_conversations self output_base convs st w).1 in
  exists new,
    errors st' = errors st ++ new
    /\ failed st' = (failed st + length new)%nat
    /\ Forall (fun err => exists conv, conv ∈ convs /\ err_title err = conv_title conv) new.
Proof.
  cbv zeta. revert st w. induction convs as [|conv rest IH]; intros st w.
  - exists []. cbn. rewrite app_nil_r. split; [reflexivity|]. split; [lia | constructor].
  - rewrite process_conversations_cons.
    destruct (IH (process_conversation self output_base conv st w).1
                 (process_conversation self output_base conv st w).2)
      as (new & Herr & Hfail & Hnew).
    assert (Hrest : Forall (fun err => exists conv0, conv0 ∈ conv :: rest
                                        /\ err_title err = conv_title conv0) new).
    { eapply Forall_impl; [exact Hnew|]. intros err (conv0 & Hin & Ht).
      exists conv0. split; [right; exact Hin | exact Ht]. }
    destruct (process_conversation_cases self output_base conv st w)
      as [(w' & _ & Hstep) | (e & w' & _ & Hstep)];
      rewrite Hstep in Herr, Hfail |- *;
      cbn [fst snd errors failed] in Herr, Hfail |- *.
    + exists new. auto.
    + eexists (_ :: new). rewrite Herr, Hfail, <- app_assoc. cbn [app length].
      split; [reflexivity|]. split; [lia|]. constructor; [|exact Hrest].
      exists conv. split; [left | reflexivity].
Qed.

Lemma process_conversations_trace self output_base convs st w :
  exists evs,
    trace (process_conversations self output_base convs st w).2 = trace w ++ evs
    /\ Forall (loop_event self convs) evs.
Proof.
  revert st w. induction convs as [|conv rest IH]; intros st w.
  - exists []. cbn. rewrite app_nil_r. split; [reflexivity | constructor].
  - rewrite process_conversations_cons.
    destruct (IH (process_conversation self output_base conv st w).1
                 (process_conversation self output_base conv st w).2)
      as (evs & Htr & Hevs).
    assert (Hstep : exists evs0,
               trace (process_conversation self output_base conv st w).2
               = trace w ++ evs0 /\ Forall (loop_event self (conv :: rest)) evs0).
    { pose proof (export_conversation_trace self output_base conv w) as Hexp.
      cbv zeta in Hexp.
      assert (Hsame : trace (process_conversation self output_base conv st w).2
                      = trace (export_conversation self output_base conv w).2).
      { destruct (process_conversation_cases self output_base conv st w)
          as [(w' & -> & ->) | (e & w' & -> & ->)]; reflexivity. }
      rewrite Hsame.
      destruct Hexp as [H | (filename & content & w1 & w2 & _ & _ & Hmd & H)];
        rewrite H; eexists; (split; [reflexivity|]).
      - repeat constructor.
      - constructor; [exact I|]. constructor; [|constructor].
        exists conv. split; [left | exact Hmd]. }
    destruct Hstep as (evs0 & Htr0 & Hevs0).
    exists (evs0 ++ evs). rewrite Htr, Htr0, <- app_assoc. split; [reflexivity|].
    apply Forall_app. split; [exact Hevs0|].
    eapply Forall_impl; [exact Hevs|]. intros [p|p content|p content]; cbn; [tauto | | tauto].
    intros (conv0 & Hin & Hmd). exists conv0. split; [right; exact Hin | exact Hmd].
Qed.

(** [process_json_export] on a loaded payload: the calls of the loop, then
    the writing of the error log when, and only when, a conversation
    failed. *)
Lemma process_json_export_loaded self data output_base w :
  let r := process_json_export self (Loaded data) output_base w in
  exists evs,
    Forall (loop_event self (default [] data)) evs
    /\ trace r.2
       = trace w ++ evs
         ++ (if (0 <? failed r.1.2)%nat
             then [EvOpenWrite (error_log_path output_base)
                     (error_log_text (errors r.1.2))]
             else [])
    /\ failed r.1.2 = length (errors r.1.2).
Proof.
  cbv zeta. unfold process_json_export.
  destruct (process_conversations_trace self output_base (default [] data)
              initial_state w) as (evs & Htr & Hevs).
  destruct (process_conversations_errors self output_base (default [] data)
              initial_state w) as (new & Herr & Hfail & _).
  cbv zeta in Herr, Hfail.
  destruct (process_conversations _ _ _ initial_state w) as [st w'].
  cbn [fst snd initial_state errors failed app Nat.add] in Htr, Herr, Hfail.
  exists evs. split; [exact Hevs|].
  destruct (0 <? failed st)%nat eqn:Hpos.
  - assert (Hlog : write_error_log st output_base w'
                   = open_write (error_log_path output_base)
                       (error_log_text (errors st)) w').
    { unfold write_error_log. rewrite Herr.
      destruct new; [apply Nat.ltb_lt in Hpos; simpl in Hfail; lia | reflexivity]. }
    rewrite Hlog. unfold open_write.
    destruct (fs_open_write _ _ _) as [[e|] d];
      cbn [of_status fst snd trace failed errors]; rewrite Hpos, Htr, <- app_assoc;
      (split; [reflexivity | congruence]).
  - cbn [fst snd]. rewrite Hpos, app_nil_r. split; [exact Htr | congruence].
Qed.


End Loop.



(** ** Determinism of the rendering *)

Section Determinism.
Context `{RT : PyRuntime} `{FS : FileSystem}.

Lemma init_exporter cfg w : init cfg w = (Ok (exporter_at cfg (ticks w)), advance w).
Proof. reflexivity. Qed.

(** The text an export writes is the rendering of its conversation. *)
Lemma export_conversation_content self output_base conv w evs p content :
  trace (export_conversation self output_base conv w).2 = trace w ++ evs ->
  EvWriteText p content ∈ evs ->
  create_markdown self conv = Ok content.
Proof.
  intros Htr Hin.
  destruct (export_conversation_trace self output_base conv w)
    as [H | (filename & content0 & w1 & w2 & _ & _ & Hmd & H)];
    rewrite H in Htr; apply app_inv_head in Htr; subst evs.
  - apply list_elem_of_singleton in Hin. discriminate.
  - apply elem_of_cons in Hin as [Hin | Hin]; [discriminate|].
    apply list_elem_of_singleton in Hin. injection Hin as _ ->. exact Hmd.
Qed.

Lemma run_trace self data w :
  exists evs log,
    trace (run self (Loaded data) w).2 = trace w ++ evs ++ log
    /\ Forall (loop_event self (default [] data)) evs
    /\ Forall (fun ev => match ev with EvOpenWrite _ _ => True | _ => False end) log.
Proof.
  cbn [run].
  pose proof (mkdir_trace
                (path_of_str (default (py "output") (output_base_dir (self_config self)))) w)
    as Hmk.
  destruct (mkdir _ w) as [[[]|e] w1]; cbn [snd] in Hmk |- *.
  - destruct (process_json_export_loaded self data
                (path_of_str (default (py "output") (output_base_dir (self_config self)))) w1)
      as (evs & Hevs & Htr & _).
    cbv zeta in Htr. rewrite Htr, Hmk, <- app_assoc.
    eexists (_ :: evs), _. split; [reflexivity|].
    split; [constructor; [exact I | exact Hevs]|].
    destruct (0 <? _)%nat; repeat constructor.
  - exists [EvMkdir (path_of_str (default (py "output") (output_base_dir (self_config self))))], [].
    rewrite Hmk. split; [reflexivity|]. split; repeat constructor.
Qed.

(** C8. The export date is computed once, by [__init__], from one reading
    of the clock. The rendering of a conversation reads neither the clock
    nor the file system: two exports of one conversation by one exporter, in
    any two states of the world and under any two output directories, write
    the same text, the rendering of the conversation; and every file a run
    writes holds the rendering of one of its conversations by the exporter
    the run started with, however often the clock is read during the run. *)
Theorem rendering_deterministic :
  (forall cfg w, init cfg w = (Ok (exporter_at cfg (ticks w)), advance w))
  /\ (forall self conv base1 base2 w1 w2 evs1 evs2 p1 p2 content1 content2,
        trace (export_conversation self base1 conv w1).2 = trace w1 ++ evs1 ->
        trace (export_conversation self base2 conv w2).2 = trace w2 ++ evs2 ->
        EvWriteText p1 content1 ∈ evs1 ->
        EvWriteText p2 content2 ∈ evs2 ->
        content1 = content2 /\ create_markdown self conv = Ok content1)
  /\ (forall cfg data w p content,
        EvWriteText p content ∈ trace (main cfg (Loaded data) w).2 ->
        EvWriteText p content ∈ trace w
        \/ exists conv,
             conv ∈ default [] data
             /\ create_markdown (exporter_at cfg (ticks w)) conv = Ok content).
Proof.
  split; [exact init_exporter|]. split.
  - intros self conv base1 base2 w1 w2 evs1 evs2 p1 p2 content1 content2
      Htr1 Htr2 Hin1 Hin2.
    pose proof (export_conversation_content _ _ _ _ _ _ _ Htr1 Hin1) as H1.
    pose proof (export_conversation_content _ _ _ _ _ _ _ Htr2 Hin2) as H2.
    split; [congruence | exact H1].
  - intros cfg data w p content. unfold main. rewrite init_exporter.
    destruct (run_trace (exporter_at cfg (ticks w)) data (advance w))
      as (evs & log & Htr & Hevs & Hlog).
    rewrite Htr. cbn [advance trace].
    intros [Hin | [Hin | Hin]%elem_of_app]%elem_of_app; [left; exact Hin | |].
    + right. rewrite Forall_forall in Hevs. apply (Hevs _ Hin).
    + exfalso. rewrite Forall_forall in Hlog. apply (Hlog _ Hin).
Qed.

End Determinism.

Lemma rendering_deterministic_witness :
  let content :=
    join [Ch.nl] [py "---"; py "Date: Unknown"; py "title: Notes";
                  py "export date: 2025-01-15"; py "---"] in
  create_markdown (RT := Reference.runtime) default_exporter (conv_in (py "abc"))
  = Ok content
  /\ exists conv,
       conv ∈ [conv_in (py "abc"); conv_in (py "xyz")]
       /\ create_markdown (RT := Reference.runtime)
            (exporter_at (RT := Reference.runtime) default_config 0) conv
          = Ok content.
Proof.
  intros content.
  destruct (rendering_deterministic (RT := Reference.runtime)
              (FS := MemFS.file_system)) as (_ & Hsame & Hrun).
  split.
  - refine (proj2 (Hsame default_exporter (conv_in (py "abc"))
                     [py "output"] [py "elsewhere"] MemFS.empty_world
                     (advance MemFS.empty_world)
                     [EvMkdir [py "output"; py "abc"];
                      EvWriteText [py "output"; py "abc"; py "Notes.md"] content]
                     [EvMkdir [py "elsewhere"; py "abc"];
                      EvWriteText [py "elsewhere"; py "abc"; py "Notes.md"] content]
                     [py "output"; py "abc"; py "Notes.md"]
                     [py "elsewhere"; py "abc"; py "Notes.md"]
                     content content _ _ _ _)).
    + vm_compute. reflexivity.
    + vm_compute. reflexivity.
    + right. left.
    + right. left.
  - destruct (Hrun default_config (Some [conv_in (py "abc"); conv_in (py "xyz")])
                MemFS.empty_world [py "output"; py "xyz"; py "Notes.md"] content)
      as [Hin | Hconv].
    + vm_compute. do 4 right. left.
    + vm_compute in Hin. inversion Hin.
    + exact Hconv.
Defined.

(** ** The naming policy *)

Lemma length_strip_by p s : (length (strip_by p s) <= length s)%nat.
Proof.
  unfold strip_by.
  destruct (lstrip_by_suffix p s) as (pre & Hpre & _).
  destruct (rstrip_by_prefix p (lstrip_by p s)) as (suf & Hsuf & _).
  rewrite Hpre at 2. rewrite Hsuf at 2. rewrite !length_app. lia.
Qed.

(** The reserve is kept: when at least the eight characters of
    [untitled] remain available, the name fits in what remains. *)
Lemma sanitize_filename_length cfg title reserve :
  (8 <= max_length cfg - reserve)%Z ->
  (Z.of_nat (length (sanitize_filename cfg title reserve))
   <= max_length cfg - reserve)%Z.
Proof.
  intros Havail. unfold sanitize_filename.
  destruct (Z.of_nat (length (clean_title title)) >? max_length cfg - reserve)%Z eqn:E.
  - assert (Hlen : (Z.of_nat (length (strip_underscore
                      (strip (slice_to (max_length cfg - reserve) (clean_title title)))))
                    <= max_length cfg - reserve)%Z).
    { unfold strip_underscore, strip.
      pose proof (length_strip_by (fun c => c =? Ch.underscore)
                    (strip_by is_space (slice_to (max_length cfg - reserve) (clean_title title)))).
      pose proof (length_strip_by is_space
                    (slice_to (max_length cfg - reserve) (clean_title title))).
      assert (length (slice_to (max_length cfg - reserve) (clean_title title))
              <= Z.to_nat (max_length cfg - reserve))%nat.
      { unfold slice_to. destruct (0 <=? _)%Z eqn:E0; [|lia].
        rewrite length_take. lia. }
      lia. }
    destruct (strip_underscore _); [cbn; lia | exact Hlen].
  - destruct (clean_title title); [cbn; lia|]. lia.
Qed.

Section Namer.
Context `{RT : PyRuntime} `{FS : FileSystem}.

(** [generate_unique_filename] after the timestamp suffix is known. *)
Lemma generate_unique_filename_steps self title created_at dir w :
  generate_unique_filename self title created_at dir w =
  match date_suffix_of self created_at w with
  | (Ok date_suffix, w1) =>
      (Ok (if append_date (self_config self) then
             suffixed_filename self title
               (Z.of_nat (length date_suffix) + 1) date_suffix
           else if fs_exists (disk w)
                     (path_div dir
                        (sanitize_filename (self_config self) title 0 ++ py ".md"))
           then suffixed_filename self title
                  (Z.of_nat (length date_suffix) + 1 + 15) date_suffix
           else sanitize_filename (self_config self) title 0 ++ py ".md"), w1)
  | (Raise e, w1) => (Raise e, w1)
  end.
Proof.
  unfold generate_unique_filename, mbind, M_bind.
  pose proof (date_suffix_of_world self created_at w) as [Hdisk _].
  destruct (date_suffix_of self created_at w) as [[date_suffix|e] w1]; [|reflexivity].
  cbn [snd] in Hdisk.
  destruct (append_date (self_config self)); [reflexivity|].
  unfold path_exists. rewrite Hdisk. destruct (fs_exists _ _); reflexivity.
Qed.

(** C2. With [append_date] every name is the title sanitized under a
    reserve of the length of the timestamp suffix plus one, then a hyphen,
    the suffix and the extension, and, when at least eight characters remain
    after the reserve, the name without its extension is no longer than
    [max_length]. Without [append_date] the name is the sanitized title and
    the extension when no file of that name is in the target directory, and
    otherwise the title sanitized under a reserve of the length of the
    suffix plus 16, then the hyphen, the suffix and the extension. So when a
    conversation has been named and written with no file of its name in the
    directory before, it has no suffix, and the next conversation with the
    same sanitized title in the same directory gets one. *)
Theorem generate_unique_filename_policy (self : exporter) :
  let cfg := self_config self in
  (forall title created_at dir w date_suffix w1,
     date_suffix_of self created_at w = (Ok date_suffix, w1) ->
     (append_date cfg = true ->
      generate_unique_filename self title created_at dir w
      = (Ok (sanitize_filename cfg title (Z.of_nat (length date_suffix) + 1)
             ++ py "-" ++ date_suffix ++ py ".md"), w1)
      /\ ((8 <= max_length cfg - (Z.of_nat (length date_suffix) + 1))%Z ->
          (Z.of_nat (length (sanitize_filename cfg title
                               (Z.of_nat (length date_suffix) + 1)
                             ++ py "-" ++ date_suffix))
           <= max_length cfg)%Z))
     /\ (append_date cfg = false ->
         fs_exists (disk w) (path_div dir (sanitize_filename cfg title 0 ++ py ".md"))
         = false ->
         generate_unique_filename self title created_at dir w
         = (Ok (sanitize_filename cfg title 0 ++ py ".md"), w1))
     /\ (append_date cfg = false ->
         fs_exists (disk w) (path_div dir (sanitize_filename cfg title 0 ++ py ".md"))
         = true ->
         generate_unique_filename self title created_at dir w
         = (Ok (sanitize_filename cfg title
                  (Z.of_nat (length date_suffix) + 1 + 15)
                ++ py "-" ++ date_suffix ++ py ".md"), w1)))
  /\ (forall title1 title2 created1 created2 dir w name1 w1 content wr
             date_suffix2 w3,
        append_date cfg = false ->
        sanitize_filename cfg title1 0 = sanitize_filename cfg title2 0 ->
        fs_exists (disk w) (path_div dir (sanitize_filename cfg title1 0 ++ py ".md"))
        = false ->
        generate_unique_filename self title1 created1 dir w = (Ok name1, w1) ->
        write_text (path_div dir name1) content w1 = (Ok tt, wr) ->
        date_suffix_of self created2 (mkdir dir wr).2 = (Ok date_suffix2, w3) ->
        name1 = sanitize_filename cfg title1 0 ++ py ".md"
        /\ generate_unique_filename self title2 created2 dir (mkdir dir wr).2
           = (Ok (sanitize_filename cfg title2
                    (Z.of_nat (length date_suffix2) + 1 + 15)
                  ++ py "-" ++ date_suffix2 ++ py ".md"), w3)).
Proof.
  cbv zeta. split.
  - intros title created_at dir w date_suffix w1 Hsuffix.
    rewrite generate_unique_filename_steps, Hsuffix.
    split; [|split].
    + intros Happ. rewrite Happ. split; [reflexivity|].
      intros Havail.
      pose proof (sanitize_filename_length (self_config self) title _ Havail).
      rewrite !length_app. cbn [py length String.list_ascii_of_string map]. lia.
    + intros Happ Hfree. rewrite Happ, Hfree. reflexivity.
    + intros Happ Htaken. rewrite Happ, Htaken. reflexivity.
  - intros title1 title2 created1 created2 dir w name1 w1 content wr
      date_suffix2 w3 Happ Hsame Hfree Hname Hwrite Hsuffix2.
    rewrite generate_unique_filename_steps in Hname.
    destruct (date_suffix_of self created1 w) as [[date_suffix1|e] w1']; [|discriminate].
    rewrite Happ, Hfree in Hname. injection Hname as <- <-.
    split; [reflexivity|].
    rewrite generate_unique_filename_steps, Hsuffix2, Happ, <- Hsame.
    assert (Hthere : fs_exists (disk (mkdir dir wr).2)
                       (path_div dir
                          (sanitize_filename (self_config self) title1 0 ++ py ".md"))
                     = true).
    { unfold write_text in Hwrite.
      destruct (fs_write_text (disk w1') _ content) as [[e|] d] eqn:Ew;
        [discriminate|].
      injection Hwrite as <-. unfold mkdir. cbn [disk].
      pose proof (fs_mkdir_keeps d dir _ (fs_write_text_exists _ _ _ _ Ew)) as Hk.
      destruct (fs_mkdir d dir). exact Hk. }
    rewrite Hthere. reflexivity.
Qed.

End Namer.

Lemma generate_unique_filename_policy_witness :
  let dir := [py "output"; py "uncategorized"] in
  let w := (mkdir (FS := MemFS.file_system) dir MemFS.empty_world).2 in
  let named := generate_unique_filename (RT := Reference.runtime)
                 (FS := MemFS.file_system) default_exporter (py "Plan")
                 (py "2024-05-06T07:08:09Z") dir w in
  let wr := (write_text (FS := MemFS.file_system)
               (path_div dir (py "Plan.md")) (py "first") named.2).2 in
  (generate_unique_filename (RT := Reference.runtime) (FS := MemFS.file_system)
     dated_exporter (py "Hello") (py "2024-05-06T07:08:09Z") dir w).1
  = Ok (py "Hello-20240506T070809.md")
  /\ named.1 = Ok (py "Plan.md")
  /\ (generate_unique_filename (RT := Reference.runtime) (FS := MemFS.file_system)
        default_exporter (py "Plan`") (py "2024-07-08T09:10:11Z") dir
        (mkdir (FS := MemFS.file_system) dir wr).2).1
     = Ok (py "Plan-20240708T091011.md").
Proof.
  cbv zeta.
  set (dir := [py "output"; py "uncategorized"]).
  set (w := (mkdir (FS := MemFS.file_system) dir MemFS.empty_world).2).
  split; [|split].
  - destruct (generate_unique_filename_policy (RT := Reference.runtime)
                (FS := MemFS.file_system) dated_exporter) as [Hpolicy _].
    destruct (Hpolicy (py "Hello") (py "2024-05-06T07:08:09Z") dir w
                (py "20240506T070809") w) as (Hdated & _ & _);
      [vm_compute; reflexivity|].
    destruct (Hdated eq_refl) as [-> Hlen]. reflexivity.
  - destruct (generate_unique_filename_policy (RT := Reference.runtime)
                (FS := MemFS.file_system) default_exporter) as [Hpolicy _].
    destruct (Hpolicy (py "Plan") (py "2024-05-06T07:08:09Z") dir w
                (py "20240506T070809") w) as (_ & Hfree & _);
      [vm_compute; reflexivity|].
    rewrite Hfree; [reflexivity | reflexivity | vm_compute; reflexivity].
  - destruct (generate_unique_filename_policy (RT := Reference.runtime)
                (FS := MemFS.file_system) default_exporter) as [_ Hcollide].
    destruct (Hcollide (py "Plan") (py "Plan`") (py "2024-05-06T07:08:09Z")
                (py "2024-07-08T09:10:11Z") dir w (py "Plan.md") w (py "first")
                (write_text (FS := MemFS.file_system)
                   (path_div dir (py "Plan.md")) (py "first") w).2
                (py "20240708T091011")
                (mkdir (FS := MemFS.file_system) dir
                   (write_text (FS := MemFS.file_system)
                      (path_div dir (py "Plan.md")) (py "first") w).2).2)
      as [_ Hsecond];
      [vm_compute; reflexivity .. | exact (f_equal fst Hsecond)].
Defined.

(** ** The end-to-end scenario

    One conversation without collection id, titled [What is Rust? <v2>],
    with one completed entry of mode [WEB]: the run creates the output
    directory and [uncategorized] in it, and writes one file there. In the
    answer the heading is demoted and, the demotion being in force, the
    citation marker of the body stays. *)
Example main_rust :
  let r := main (RT := Reference.runtime) (FS := MemFS.file_system)
             default_config (Loaded (Some [conv_rust])) MemFS.empty_world in
  exit_status r.1.1 = 0%Z
  /\ trace r.2
     = [ EvMkdir [py "output"];
         EvMkdir [py "output"; py "uncategorized"];
         EvWriteText [py "output"; py "uncategorized"; py "What is Rust_ _v2.md"]
           (join [Ch.nl]
              [ py "---"; py "Date: Unknown"; py "title: What is Rust_ _v2";
                py "export date: 2025-01-15"; py "---";
                Ch.nl :: py "# Query"; [];
                Ch.nl :: py "# Answer (web)";
                py "## Title" ++ [Ch.nl] ++ py "Body[1]" ]) ].
Proof. cbv zeta. split; vm_compute; reflexivity. Qed.

(** * Further properties *)

(** ** Collapsed runs *)

Lemma no_adjacent_cons q c s :
  no_adjacent q (c :: s) = negb (q c && head_in q s) && no_adjacent q s.
Proof. destruct s as [|b s]; [cbn; rewrite andb_false_r; reflexivity | reflexivity]. Qed.

(** Replacing the runs of a class by one character of the class leaves no
    two neighbours of the class. *)
Lemma sub_runs_from_no_adjacent p r inrun s :
  p r = true ->
  no_adjacent p (Re.sub_runs_from p [r] inrun s) = true
  /\ (inrun = true -> head_in p (Re.sub_runs_from p [r] inrun s) = false).
Proof.
  intros Hr. revert inrun. induction s as [|c s IH]; intros inrun.
  - split; reflexivity.
  - cbn [Re.sub_runs_from]. destruct (p c) eqn:Hc.
    + destruct (IH true) as [Hna Hhd]. destruct inrun; cbn [app].
      * split; [exact Hna | intros _; apply Hhd; reflexivity].
      * split; [|discriminate]. rewrite no_adjacent_cons, Hna, Hhd by reflexivity.
        rewrite andb_false_r. reflexivity.
    + destruct (IH false) as [Hna _]. split.
      * rewrite no_adjacent_cons, Hc, Hna. reflexivity.
      * intros _. cbn. exact Hc.
Qed.

(** Replacing the runs of one class by a character outside another class
    brings no two characters of that other class together. *)
Lemma sub_runs_from_keeps_no_adjacent q p r inrun s :
  q r = false -> (forall c, q c = true -> p c = false) ->
  no_adjacent q s = true ->
  no_adjacent q (Re.sub_runs_from p [r] inrun s) = true
  /\ (inrun = false -> head_in q (Re.sub_runs_from p [r] inrun s) = true ->
      head_in q s = true).
Proof.
  intros Hr Hqp. revert inrun. induction s as [|c s IH]; intros inrun Hs.
  - split; [reflexivity | cbn; discriminate].
  - rewrite no_adjacent_cons in Hs. apply andb_true_iff in Hs as [Hcs Hs].
    cbn [Re.sub_runs_from]. destruct (p c) eqn:Hc.
    + destruct (IH true Hs) as [Hna _]. destruct inrun; cbn [app].
      * split; [exact Hna | discriminate].
      * split; [|cbn; rewrite Hr; discriminate].
        rewrite no_adjacent_cons, Hr, Hna. reflexivity.
    + destruct (IH false Hs) as [Hna Hhd]. split; [|intros _ H; exact H].
      rewrite no_adjacent_cons, Hna, andb_true_r.
      destruct (q c) eqn:Hqc; [|reflexivity]. cbn [andb].
      destruct (head_in q (Re.sub_runs_from p [r] false s)) eqn:Hh; [|reflexivity].
      rewrite (Hhd eq_refl eq_refl) in Hcs. discriminate.
Qed.

Lemma no_adjacent_app q a b :
  no_adjacent q (a ++ b) = true -> no_adjacent q a = true /\ no_adjacent q b = true.
Proof.
  induction a as [|c a IH]; [intros H; split; [reflexivity | exact H]|].
  cbn [app]. rewrite !no_adjacent_cons. intros [Hc Hab]%andb_true_iff.
  destruct (IH Hab) as [Ha Hb]. split; [|exact Hb].
  rewrite Ha, andb_true_r. destruct a; [cbn; rewrite andb_false_r; reflexivity | exact Hc].
Qed.

Lemma no_adjacent_strip_by q p s :
  no_adjacent q s = true -> no_adjacent q (strip_by p s) = true.
Proof.
  intros H. unfold strip_by.
  destruct (lstrip_by_suffix p s) as (pre & Hpre & _).
  destruct (rstrip_by_prefix p (lstrip_by p s)) as (suf & Hsuf & _).
  rewrite Hpre in H. apply no_adjacent_app in H as [_ H].
  rewrite Hsuf in H. apply no_adjacent_app in H as [H _]. exact H.
Qed.

Lemma no_adjacent_slice_to q n s :
  no_adjacent q s = true -> no_adjacent q (slice_to n s) = true.
Proof.
  intros H. unfold slice_to.
  destruct (0 <=? n)%Z;
    [rewrite <- (take_drop (Z.to_nat n) s) in H
    |rewrite <- (take_drop (length s - Z.to_nat (- n)) s) in H];
    apply no_adjacent_app in H; tauto.
Qed.

Lemma collapse_and_strip_no_adjacent s :
  no_adjacent is_space (collapse_and_strip s) = true
  /\ no_adjacent (fun c => c =? Ch.underscore) (collapse_and_strip s) = true.
Proof.
  unfold collapse_and_strip, strip_underscore, strip, Re.sub_runs. split.
  - do 2 apply no_adjacent_strip_by.
    apply sub_runs_from_keeps_no_adjacent; [reflexivity | |].
    + intros c Hc. destruct (c =? Ch.underscore) eqn:E; [|reflexivity].
      apply N.eqb_eq in E. subst c. discriminate.
    + apply sub_runs_from_no_adjacent. reflexivity.
  - do 2 apply no_adjacent_strip_by.
    apply sub_runs_from_no_adjacent. reflexivity.
Qed.

(** ** The shape of sanitized names and titles *)

Lemma clean_title_collapse title :
  clean_title title
  = collapse_and_strip
      (Re.delete_class fs_invalid_char
         (Re.sub_runs (fun c => negb (allowed_char c)) [Ch.underscore]
            (remove_char Ch.backtick
               (replace_char Ch.cr Ch.space (replace_char Ch.nl Ch.space title))))).
Proof. reflexivity. Qed.

Lemma sanitize_text_collapse text for_metadata :
  sanitize_text text for_metadata
  = collapse_and_strip
      (if for_metadata
       then Re.sub_runs (fun c => negb (allowed_char c)) [Ch.underscore]
              (remove_char Ch.backtick
                 (replace_char Ch.cr Ch.space (replace_char Ch.nl Ch.space text)))
       else remove_char Ch.backtick
              (replace_char Ch.cr Ch.space (replace_char Ch.nl Ch.space text))).
Proof. destruct for_metadata; reflexivity. Qed.

Lemma Forall_collapse_and_strip (P : N -> Prop) s :
  Forall P s -> P Ch.space -> P Ch.underscore -> Forall P (collapse_and_strip s).
Proof.
  intros Hs Hsp Hun. unfold collapse_and_strip, strip_underscore, strip, Re.sub_runs.
  do 2 apply Forall_strip_by.
  apply Forall_sub_runs_from with (P := P); [|auto|repeat constructor; exact Hun].
  apply Forall_sub_runs_from with (P := P); [exact Hs|auto|repeat constructor; exact Hsp].
Qed.

(** After the collapsing steps the space is the only whitespace left. *)
Lemma collapse_and_strip_space s :
  Forall (fun c => is_space c = true -> c = Ch.space) (collapse_and_strip s).
Proof.
  unfold collapse_and_strip, strip_underscore, strip, Re.sub_runs.
  do 2 apply Forall_strip_by.
  apply Forall_sub_runs_from
    with (P := fun c => is_space c = true -> c = Ch.space);
    [|auto|repeat constructor; discriminate].
  apply Forall_sub_runs_from with (P := fun _ => True);
    [apply Forall_true; tauto | | repeat constructor].
  intros c _ Hc Hs. congruence.
Qed.

(** X1. Whatever the title, the length limit and the reserve, the name
    [sanitize_filename] returns is not empty, is made of ASCII letters,
    digits, spaces and the characters [. , - _ ( ) @] only (so it holds no
    path separator, no quote and no control character), neither starts nor
    ends with an underscore, and has no two whitespace characters and no two
    underscores in a row. *)
Theorem sanitize_filename_shape (cfg : config) (title : pystr) (reserve : Z) :
  sanitize_filename cfg title reserve <> []
  /\ Forall (fun c => filename_char c = true) (sanitize_filename cfg title reserve)
  /\ head (sanitize_filename cfg title reserve) <> Some Ch.underscore
  /\ last (sanitize_filename cfg title reserve) <> Some Ch.underscore
  /\ no_adjacent is_space (sanitize_filename cfg title reserve) = true
  /\ no_adjacent (fun c => c =? Ch.underscore)
       (sanitize_filename cfg title reserve) = true.
Proof.
  split; [apply sanitize_filename_nonempty|].
  split; [apply sanitize_filename_chars|].
  split; [apply sanitize_filename_underscore_ends|].
  split; [apply sanitize_filename_underscore_ends|].
  assert (Hclean : forall q,
            no_adjacent q (clean_title title) = true ->
            no_adjacent q (sanitize_filename cfg title reserve) = true
            \/ sanitize_filename cfg title reserve = py "untitled").
  { intros q Hq. unfold sanitize_filename.
    destruct (_ >? _)%Z.
    - destruct (strip_underscore _) eqn:E; [right; reflexivity|]. left.
      rewrite <- E. unfold strip_underscore, strip.
      do 2 apply no_adjacent_strip_by. apply no_adjacent_slice_to, Hq.
    - destruct (clean_title title); [right; reflexivity | left; exact Hq]. }
  rewrite clean_title_collapse in Hclean.
  split.
  - destruct (Hclean is_space) as [H | ->];
      [apply collapse_and_strip_no_adjacent | exact H | reflexivity].
  - destruct (Hclean (fun c => c =? Ch.underscore)) as [H | ->];
      [apply collapse_and_strip_no_adjacent | exact H | reflexivity].
Qed.

(** A cleaned title that is not empty and fits is the name. *)
Lemma sanitize_filename_fits cfg title reserve :
  clean_title title <> [] ->
  (Z.of_nat (length (clean_title title)) <= max_length cfg - reserve)%Z ->
  sanitize_filename cfg title reserve = clean_title title.
Proof.
  intros Hne Hfit. unfold sanitize_filename.
  pose proof (Zgt_cases (Z.of_nat (length (clean_title title)))
                (max_length cfg - reserve)) as Hc.
  destruct (_ >? _)%Z; [lia|].
  destruct (clean_title title); [congruence | reflexivity].
Qed.

(** X2. The length limit of [sanitize_filename]. With [max_length - reserve]
    not negative the name has at most that many characters, or the eight of
    [untitled] when fewer are available, and with none available every title
    is named [untitled]. With a negative difference nothing is cut to that
    length: the slice counts from the end, and the bound is the length of
    the cleaned title plus the difference. A cleaned title that fits and is
    not empty is the name. *)
Theorem sanitize_filename_bounds (cfg : config) (title : pystr) (reserve : Z) :
  let available := (max_length cfg - reserve)%Z in
  let name := sanitize_filename cfg title reserve in
  ((0 <= available)%Z ->
   (Z.of_nat (length name) <= Z.max 8 available)%Z)
  /\ ((available < 0)%Z ->
      (Z.of_nat (length name)
       <= Z.max 8 (Z.of_nat (length (clean_title title)) + available))%Z)
  /\ (available = 0%Z -> name = py "untitled")
  /\ ((Z.of_nat (length (clean_title title)) <= available)%Z ->
      clean_title title <> [] -> name = clean_title title).
Proof.
  cbv zeta. unfold sanitize_filename.
  set (available := (max_length cfg - reserve)%Z).
  set (cut := strip_underscore (strip (slice_to available (clean_title title)))).
  assert (Hcut : (length cut <= length (slice_to available (clean_title title)))%nat).
  { unfold cut, strip_underscore, strip.
    etransitivity; [apply length_strip_by | apply length_strip_by]. }
  assert (Hpos : (0 <= available)%Z ->
                 (length (slice_to available (clean_title title))
                  <= Z.to_nat available)%nat).
  { intros H. unfold slice_to. apply Z.leb_le in H. rewrite H.
    rewrite length_take. lia. }
  assert (Hneg : (available < 0)%Z ->
                 (Z.of_nat (length (slice_to available (clean_title title)))
                  <= Z.max 0 (Z.of_nat (length (clean_title title)) + available))%Z).
  { intros H. unfold slice_to.
    destruct (0 <=? available)%Z eqn:E; [apply Z.leb_le in E; lia|].
    rewrite length_take. lia. }
  split; [|split; [|split]].
  - intros Hav. specialize (Hpos Hav).
    pose proof (Zgt_cases (Z.of_nat (length (clean_title title))) available) as Hc.
    destruct (_ >? _)%Z.
    + destruct cut; [cbn; lia | cbn [length] in *; lia].
    + destruct (clean_title title); [cbn; lia | cbn [length] in *; lia].
  - intros Hav. specialize (Hneg Hav).
    pose proof (Zgt_cases (Z.of_nat (length (clean_title title))) available) as Hc.
    destruct (_ >? _)%Z.
    + destruct cut; [cbn; lia | cbn [length] in *; lia].
    + destruct (clean_title title); [cbn; lia | cbn [length] in *; lia].
  - intros Hav. assert (Hz : (0 <= available)%Z) by lia. specialize (Hpos Hz).
    pose proof (Zgt_cases (Z.of_nat (length (clean_title title))) available) as Hc.
    destruct (_ >? _)%Z.
    + destruct cut; [reflexivity | cbn [length] in *; lia].
    + destruct (clean_title title); [reflexivity | cbn [length] in *; lia].
  - intros Hfit Hne. apply sanitize_filename_fits; assumption.
Qed.

Lemma sanitize_filename_bounds_witness :
  (Z.of_nat (length (sanitize_filename default_config (py "a long title") 125))
   <= Z.max 8 3)%Z
  /\ (Z.of_nat (length (sanitize_filename default_config (py "a long title") 130))
      <= Z.max 8 (Z.of_nat (length (clean_title (py "a long title"))) + -2))%Z
  /\ sanitize_filename default_config (py "a long title") 128 = py "untitled"
  /\ sanitize_filename default_config (py "a long title") 0
     = clean_title (py "a long title").
Proof.
  destruct (sanitize_filename_bounds default_config (py "a long title") 125)
    as (Hpos & _ & _ & _).
  destruct (sanitize_filename_bounds default_config (py "a long title") 130)
    as (_ & Hneg & _ & _).
  destruct (sanitize_filename_bounds default_config (py "a long title") 128)
    as (_ & _ & Hzero & _).
  destruct (sanitize_filename_bounds default_config (py "a long title") 0)
    as (_ & _ & _ & Hfit).
  split; [apply Hpos; vm_compute; discriminate|].
  split; [apply Hneg; reflexivity|].
  split; [apply Hzero; reflexivity|].
  apply Hfit; [vm_compute; discriminate | vm_compute; discriminate].
Defined.

Lemma Forall_replace_char (P : N -> Prop) a b s :
  Forall P s -> P b -> Forall P (replace_char a b s).
Proof.
  intros Hs Hb. unfold replace_char. induction Hs as [|c s Hc Hs IH]; [constructor|].
  cbn [map]. constructor; [destruct (c =? a); assumption | exact IH].
Qed.

Lemma Forall_remove_char (P : N -> Prop) a s :
  Forall P s -> Forall (fun c => P c /\ c <> a) (remove_char a s).
Proof.
  unfold remove_char. induction 1 as [|c s Hc Hs IH]; [constructor|].
  rewrite filter_cons. case_decide; [constructor; [split|]|]; assumption.
Qed.

(** X3. Whatever the text and the flag, the result of [sanitize_text] holds
    no line feed, no carriage return and no backtick; its only whitespace is
    the space, never two in a row; it has no two underscores in a row and
    none at either end. With [for_metadata], as for the title of the
    metadata block, every character is of the kept class. So the title
    line of the metadata block is always one line. *)
Theorem sanitize_text_shape (text : pystr) (for_metadata : bool) :
  (Ch.nl ∉ sanitize_text text for_metadata)
  /\ (Ch.cr ∉ sanitize_text text for_metadata)
  /\ (Ch.backtick ∉ sanitize_text text for_metadata)
  /\ Forall (fun c => is_space c = true -> c = Ch.space)
       (sanitize_text text for_metadata)
  /\ no_adjacent is_space (sanitize_text text for_metadata) = true
  /\ no_adjacent (fun c => c =? Ch.underscore)
       (sanitize_text text for_metadata) = true
  /\ head (sanitize_text text for_metadata) <> Some Ch.underscore
  /\ last (sanitize_text text for_metadata) <> Some Ch.underscore
  /\ (for_metadata = true ->
      Forall (fun c => allowed_char c = true) (sanitize_text text for_metadata)).
Proof.
  rewrite sanitize_text_collapse.
  set (body := if for_metadata then _ else _).
  pose proof (collapse_and_strip_space body) as Hspace.
  assert (Hno : forall c, is_space c = true -> c <> Ch.space ->
                          c ∉ collapse_and_strip body).
  { intros c Hc Hne Hin. rewrite Forall_forall in Hspace.
    apply Hne, (Hspace _ Hin), Hc. }
  split; [apply Hno; [reflexivity | discriminate]|].
  split; [apply Hno; [reflexivity | discriminate]|].
  split.
  { assert (Hbody : Forall (fun c => c <> Ch.backtick) body).
    { assert (Hrm : Forall (fun c => c <> Ch.backtick)
                      (remove_char Ch.backtick
                         (replace_char Ch.cr Ch.space
                            (replace_char Ch.nl Ch.space text)))).
      { eapply Forall_impl;
          [apply Forall_remove_char with (P := fun _ => True), Forall_true; tauto|].
        intros c [_ Hc]. exact Hc. }
      unfold body. destruct for_metadata; [|exact Hrm].
      apply Forall_sub_runs_from with (P := fun c => c <> Ch.backtick);
        [exact Hrm | auto | repeat constructor; discriminate]. }
    intros Hin.
    pose proof (Forall_collapse_and_strip (fun c => c <> Ch.backtick) body Hbody
                  ltac:(discriminate) ltac:(discriminate)) as H.
    rewrite Forall_forall in H. exact (H _ Hin eq_refl). }
  split; [exact Hspace|].
  split; [apply collapse_and_strip_no_adjacent|].
  split; [apply collapse_and_strip_no_adjacent|].
  split; [intros H; apply strip_by_head in H; discriminate|].
  split; [intros H; apply strip_by_last in H; discriminate|].
  intros ->. unfold body.
  apply Forall_collapse_and_strip; [|reflexivity|reflexivity].
  apply Forall_sub_runs_from with (P := fun _ => True);
    [apply Forall_true; tauto | | repeat constructor].
  intros c _ Hc. apply negb_false_iff. exact Hc.
Qed.

Lemma allowed_not_invalid c :
  allowed_char c = true -> c <> Ch.dquote -> fs_invalid_char c = false.
Proof.
  intros Ha Hq. unfold fs_invalid_char.
  destruct (c =? Ch.dquote) eqn:E4; [apply N.eqb_eq in E4; contradiction|].
  destruct (c =? Ch.lt) eqn:E1; [apply N.eqb_eq in E1; subst c; discriminate|].
  destruct (c =? Ch.gt) eqn:E2; [apply N.eqb_eq in E2; subst c; discriminate|].
  destruct (c =? Ch.colon) eqn:E3; [apply N.eqb_eq in E3; subst c; discriminate|].
  destruct (c =? Ch.slash) eqn:E5; [apply N.eqb_eq in E5; subst c; discriminate|].
  destruct (c =? Ch.backslash) eqn:E6; [apply N.eqb_eq in E6; subst c; discriminate|].
  destruct (c =? Ch.pipe) eqn:E7; [apply N.eqb_eq in E7; subst c; discriminate|].
  destruct (c =? Ch.question) eqn:E8; [apply N.eqb_eq in E8; subst c; discriminate|].
  destruct (c =? Ch.star) eqn:E9; [apply N.eqb_eq in E9; subst c; discriminate|].
  reflexivity.
Qed.

Lemma delete_class_none p s :
  Forall (fun c => p c = false) s -> Re.delete_class p s = s.
Proof.
  unfold Re.delete_class. induction 1 as [|c s Hc Hs IH]; [reflexivity|].
  rewrite filter_cons_True by exact Hc. f_equal. exact IH.
Qed.

(** X4. The file name and the metadata title of a conversation come from
    the same cleaning: for a title without double quote the cleaned title
    of [sanitize_filename] is [sanitize_text] of the title for the metadata,
    and it is the file name itself when it is not empty and fits in
    [max_length] less the reserve. The double quote is the only character
    the two treat differently. *)
Theorem sanitize_filename_metadata_title (cfg : config) (title : pystr)
    (reserve : Z) :
  Ch.dquote ∉ title ->
  clean_title title = sanitize_text title true
  /\ (sanitize_text title true <> [] ->
      (Z.of_nat (length (sanitize_text title true)) <= max_length cfg - reserve)%Z ->
      sanitize_filename cfg title reserve = sanitize_text title true).
Proof.
  intros Hq.
  assert (Hsame : clean_title title = sanitize_text title true).
  { rewrite clean_title_collapse, sanitize_text_collapse. f_equal.
    apply delete_class_none.
    eapply Forall_impl.
    - apply Forall_sub_runs_from
        with (P := fun c => c <> Ch.dquote)
             (Q := fun c => allowed_char c = true /\ c <> Ch.dquote).
      + eapply Forall_impl;
          [apply Forall_remove_char with (P := fun c => c <> Ch.dquote)|].
        * apply Forall_replace_char; [|discriminate].
          apply Forall_replace_char; [|discriminate].
          apply Forall_forall. intros c Hc ->. contradiction.
        * intros c [Hc _]. exact Hc.
      + intros c Hc Ha. split; [apply negb_false_iff, Ha | exact Hc].
      + repeat constructor. discriminate.
    - intros c [Ha Hc]. apply allowed_not_invalid; assumption. }
  split; [exact Hsame|]. rewrite <- Hsame. intros Hne Hfit.
  apply sanitize_filename_fits; assumption.
Qed.

Lemma sanitize_text_shape_witness :
  Forall (fun c => allowed_char c = true)
    (sanitize_text (py "Why `rust`? <v2>" ++ [Ch.nl] ++ py "__now") true).
Proof.
  apply (sanitize_text_shape (py "Why `rust`? <v2>" ++ [Ch.nl] ++ py "__now") true).
  reflexivity.
Defined.

Lemma sanitize_filename_metadata_title_witness :
  clean_title (py "What is Rust? <v2>") = sanitize_text (py "What is Rust? <v2>") true
  /\ sanitize_filename default_config (py "What is Rust? <v2>") 16
     = sanitize_text (py "What is Rust? <v2>") true.
Proof.
  destruct (sanitize_filename_metadata_title default_config
              (py "What is Rust? <v2>") 16) as [Hsame Hname].
  - intros Hin. vm_compute in Hin.
    repeat (apply elem_of_cons in Hin as [Hin | Hin]; [discriminate|]).
    inversion Hin.
  - split; [exact Hsame|]. apply Hname; vm_compute; discriminate.
Defined.

(** ** What citation stripping and heading demotion keep *)

Section Kept.
Context `{RT : PyRuntime}.

Lemma match_digits_close_chars s n :
  match_digits_close s = Some n ->
  Forall (fun c => citation_char c = true) (take n s).
Proof.
  revert n. induction s as [|c s IH]; intros n; [discriminate|].
  cbn [match_digits_close]. destruct (isdecimal c) eqn:Hc; [|discriminate].
  assert (Hcc : citation_char c = true)
    by (unfold citation_char; rewrite Hc; apply orb_true_r).
  destruct (match_digits_close s) as [m|].
  - intros [= <-]. cbn [take]. constructor; [exact Hcc | apply IH; reflexivity].
  - destruct s as [|c' s]; [discriminate|].
    destruct (c' =? Ch.rbracket) eqn:E; [|discriminate].
    intros [= <-]. cbn [take]. constructor; [exact Hcc|].
    constructor; [|constructor]. unfold citation_char. rewrite E.
    rewrite orb_true_r. reflexivity.
Qed.

Lemma match_citation_chars s n :
  match_citation s = Some n ->
  Forall (fun c => citation_char c = true) (take n s).
Proof.
  destruct s as [|c s]; [discriminate|]. cbn [match_citation].
  destruct (c =? Ch.lbracket) eqn:E; [|discriminate].
  destruct (match_digits_close s) as [m|] eqn:Em; [|discriminate].
  intros [= <-]. cbn [take]. constructor.
  - unfold citation_char. rewrite E. reflexivity.
  - apply match_digits_close_chars, Em.
Qed.

(** X5. Citation stripping only deletes, and only square brackets and
    decimal digits: its result is a subsequence of the text, every other
    character of the text is kept, in order, and a text without opening
    bracket is returned as it is. *)
Theorem remove_citation_numbers_keeps (text : pystr) :
  remove_citation_numbers text `sublist_of` text
  /\ filter (fun c => citation_char c = false) (remove_citation_numbers text)
     = filter (fun c => citation_char c = false) text
  /\ (Ch.lbracket ∉ text -> remove_citation_numbers text = text).
Proof.
  split; [|split].
  - remember (length text) as k eqn:Hk. revert text Hk.
    induction k as [k IH] using lt_wf_ind. intros text Hk.
    rewrite remove_citation_numbers_unfold.
    destruct (match_citation text) as [n|] eqn:E.
    + pose proof (match_citation_bounds _ _ E) as Hn.
      etransitivity; [|apply sublist_drop].
      apply (IH (length (drop n text))); [|reflexivity].
      rewrite length_drop. lia.
    + destruct text as [|c text]; [reflexivity|].
      apply sublist_skip. apply (IH (length text)); [subst k; cbn; lia | reflexivity].
  - remember (length text) as k eqn:Hk. revert text Hk.
    induction k as [k IH] using lt_wf_ind. intros text Hk.
    rewrite remove_citation_numbers_unfold.
    destruct (match_citation text) as [n|] eqn:E.
    + pose proof (match_citation_bounds _ _ E) as Hn.
      rewrite (IH (length (drop n text))); [|rewrite length_drop; lia|reflexivity].
      rewrite <- (take_drop n text) at 2. rewrite filter_app.
      pose proof (match_citation_chars _ _ E) as Hchars.
      assert (Hnil : filter (fun c => citation_char c = false) (take n text) = []).
      { induction Hchars as [|c l Hc Hl IHl]; [reflexivity|].
        rewrite filter_cons_False by congruence. exact IHl. }
      rewrite Hnil. reflexivity.
    + destruct text as [|c text]; [reflexivity|].
      rewrite !filter_cons.
      rewrite (IH (length text)); [reflexivity | subst k; cbn; lia | reflexivity].
  - intros Hno. apply remove_citation_numbers_plain.
    apply Forall_forall. intros c Hc ->. contradiction.
Qed.

(** A subsequence of a line has no line feed of its own. *)
Lemma remove_citation_numbers_no_nl line :
  Ch.nl ∉ line -> Ch.nl ∉ remove_citation_numbers line.
Proof.
  intros Hno Hin. apply Hno.
  remember (length line) as k eqn:Hk. revert line Hk Hno Hin.
  induction k as [k IH] using lt_wf_ind. intros line Hk Hno.
  rewrite remove_citation_numbers_unfold.
  destruct (match_citation line) as [n|] eqn:E.
  - pose proof (match_citation_bounds _ _ E) as Hn. intros Hin.
    exfalso. apply Hno.
    rewrite <- (take_drop n line). apply elem_of_app. right.
    apply (IH (length (drop n line))); [rewrite length_drop; lia | reflexivity | | exact Hin].
    intros Hd. apply Hno. rewrite <- (take_drop n line). apply elem_of_app. right. exact Hd.
  - destruct line as [|c line]; [intros Hin; inversion Hin|].
    intros [-> | Hin]%elem_of_cons; [left|].
    right. apply (IH (length line)); [subst k; cbn; lia | reflexivity | | exact Hin].
    intros Hl. apply Hno. right. exact Hl.
Qed.

(** X6. Demotion raises the level of a heading by exactly one: a line of
    [k + 1] [#] followed by a whitespace character and the rest becomes the
    line of [k + 2] [#], the same whitespace character and the rest without
    its citation markers, which is a heading line again; a line that is no
    heading line is kept as it is. *)
Theorem demote_line_level (k : nat) (c : N) (rest line : pystr) :
  (is_space c = true ->
   demote_line (replicate (S k) Ch.hash ++ c :: rest)
   = replicate (S (S k)) Ch.hash ++ c :: remove_citation_numbers rest
   /\ is_heading_line (demote_line (replicate (S k) Ch.hash ++ c :: rest)) = true)
  /\ (is_heading_line line = false -> demote_line line = line).
Proof.
  split.
  - intros Hc.
    assert (Hline : is_heading_line (replicate (S k) Ch.hash ++ c :: rest) = true)
      by (apply is_heading_line_spec; eauto).
    assert (Hdemoted :
              demote_line (replicate (S k) Ch.hash ++ c :: rest)
              = replicate (S (S k)) Ch.hash ++ c :: remove_citation_numbers rest).
    { rewrite demote_line_heading, Hline.
      change (replicate (S (S k)) Ch.hash) with (Ch.hash :: replicate (S k) Ch.hash).
      cbn [app]. f_equal.
      change (c :: rest) with ([c] ++ rest). rewrite !app_assoc.
      rewrite remove_citation_numbers_no_bracket;
        [rewrite <- app_assoc; reflexivity|].
      apply Forall_app. split.
      - apply Forall_replicate. discriminate.
      - constructor; [|constructor]. intros ->. discriminate. }
    split; [exact Hdemoted|]. rewrite Hdemoted.
    apply is_heading_line_spec. eauto.
  - intros Hline. rewrite demote_line_heading, Hline. reflexivity.
Qed.

End Kept.

Lemma split_on_app_sep sep l t :
  sep ∉ l -> split_on sep (l ++ sep :: t) = l :: split_on sep t.
Proof.
  induction l as [|c l IH]; intros Hno.
  - cbn [app split_on]. rewrite N.eqb_refl. reflexivity.
  - apply not_elem_of_cons in Hno as [Hc Hl]. cbn [app split_on].
    destruct (c =? sep) eqn:E; [apply N.eqb_eq in E; congruence|].
    rewrite IH by exact Hl. reflexivity.
Qed.

(** Joining lines and splitting the text gives the lines. *)
Lemma split_on_join sep ls :
  ls <> [] -> Forall (fun l => sep ∉ l) ls -> split_on sep (join [sep] ls) = ls.
Proof.
  intros Hne Hls. induction Hls as [|l ls Hl Hls IH]; [congruence|].
  destruct ls as [|l' ls].
  - cbn [join]. apply split_on_absent, Hl.
  - rewrite join_cons_cons. cbn [app].
    rewrite split_on_app_sep by exact Hl. rewrite IH by discriminate. reflexivity.
Qed.

Lemma split_on_no_sep sep s : Forall (fun l => sep ∉ l) (split_on sep s).
Proof.
  induction s as [|c s IH]; cbn [split_on].
  - constructor; [|constructor]. intros H. inversion H.
  - destruct (c =? sep) eqn:E.
    + constructor; [intros H; inversion H | exact IH].
    + destruct (split_on sep s) as [|l ls].
      * constructor; [|constructor].
        intros [-> | H]%elem_of_cons; [rewrite N.eqb_refl in E; discriminate | inversion H].
      * apply Forall_cons in IH as [Hl Hls]. constructor; [|exact Hls].
        intros [-> | H]%elem_of_cons; [rewrite N.eqb_refl in E; discriminate | contradiction].
Qed.

Section Lines.
Context `{RT : PyRuntime}.

Lemma demote_line_no_nl line : Ch.nl ∉ line -> Ch.nl ∉ demote_line line.
Proof.
  intros Hno. rewrite demote_line_heading.
  destruct (is_heading_line line); [|exact Hno].
  intros [H | H]%elem_of_cons; [discriminate|].
  exact (remove_citation_numbers_no_nl line Hno H).
Qed.

(** X7. [demote_headings] works line by line: the lines of its result are
    the lines of the text, each one demoted or kept, so no line is added,
    dropped, merged or split; and a text none of whose lines is a heading
    line is returned as it is. *)
Theorem demote_headings_lines (content : pystr) :
  split_on Ch.nl (demote_headings content)
  = map demote_line (split_on Ch.nl content)
  /\ (Forall (fun line => is_heading_line line = false) (split_on Ch.nl content) ->
      demote_headings content = content).
Proof.
  split.
  - unfold demote_headings. apply split_on_join.
    + pose proof (split_on_nonempty Ch.nl content).
      destruct (split_on Ch.nl content); [congruence | discriminate].
    + apply Forall_map. eapply Forall_impl; [apply split_on_no_sep|].
      intros line Hline. apply demote_line_no_nl, Hline.
  - intros Hnone. unfold demote_headings.
    rewrite <- (join_split_on Ch.nl content) at 2. f_equal.
    induction Hnone as [|line ls Hline Hls IH]; [reflexivity|].
    cbn [map]. rewrite demote_line_heading, Hline, IH. reflexivity.
Qed.

End Lines.

Lemma remove_citation_numbers_keeps_witness :
  remove_citation_numbers (RT := Reference.runtime) (py "no markers (here)")
  = py "no markers (here)".
Proof.
  apply (remove_citation_numbers_keeps (RT := Reference.runtime)).
  intros Hin. vm_compute in Hin.
  repeat (apply elem_of_cons in Hin as [Hin | Hin]; [discriminate|]).
  inversion Hin.
Defined.

Lemma demote_line_level_witness :
  demote_line (RT := Reference.runtime)
    (replicate 2 Ch.hash ++ Ch.space :: py "Setup[3]")
  = replicate 3 Ch.hash
    ++ Ch.space :: remove_citation_numbers (RT := Reference.runtime) (py "Setup[3]")
  /\ demote_line (RT := Reference.runtime) (py "#hashtag") = py "#hashtag".
Proof.
  split.
  - apply (demote_line_level (RT := Reference.runtime) 1 Ch.space (py "Setup[3]") []).
    reflexivity.
  - apply (demote_line_level (RT := Reference.runtime) 0 Ch.space [] (py "#hashtag")).
    reflexivity.
Defined.

Lemma demote_headings_lines_witness :
  demote_headings (RT := Reference.runtime)
    (py "plain" ++ [Ch.nl] ++ py "  # indented[1]")
  = py "plain" ++ [Ch.nl] ++ py "  # indented[1]".
Proof.
  apply (demote_headings_lines (RT := Reference.runtime)).
  vm_compute. repeat constructor.
Defined.

(** ** Asset links *)

(** X8. An asset link keeps the asset path as it is, between an opening
    and a closing that depend on the configuration only, so different
    asset paths get different links; the opening is that of an embed for
    [wikilinks] and that of an image link otherwise, and without
    [relative_to_markdown] the target starts one directory up. *)
Theorem format_asset_link_parts (self : exporter) :
  exists opening closing,
    (forall asset_path,
       format_asset_link self asset_path = opening ++ asset_path ++ closing)
    /\ (forall a b, a <> b -> format_asset_link self a <> format_asset_link self b)
    /\ opening
       = (if use_wikilinks (self_config self) then py "![[" else py "![Asset](")
         ++ (if relative_to_markdown (self_config self) then [] else py "../")
         ++ assets_dir (self_config self) ++ py "/"
    /\ closing = (if use_wikilinks (self_config self) then py "]]" else py ")").
Proof.
  exists ((if use_wikilinks (self_config self) then py "![[" else py "![Asset](")
          ++ (if relative_to_markdown (self_config self) then [] else py "../")
          ++ assets_dir (self_config self) ++ py "/"),
         (if use_wikilinks (self_config self) then py "]]" else py ")").
  assert (Hparts : forall asset_path,
            format_asset_link self asset_path
            = ((if use_wikilinks (self_config self) then py "![[" else py "![Asset](")
               ++ (if relative_to_markdown (self_config self) then [] else py "../")
               ++ assets_dir (self_config self) ++ py "/")
              ++ asset_path
              ++ (if use_wikilinks (self_config self) then py "]]" else py ")")).
  { intros asset_path. unfold format_asset_link.
    destruct (use_wikilinks _), (relative_to_markdown _);
      rewrite <- ?app_assoc; reflexivity. }
  split; [exact Hparts|]. split; [|split; reflexivity].
  intros a b Hne Heq. rewrite !Hparts in Heq.
  apply app_inv_head in Heq. apply app_inv_tail in Heq. contradiction.
Qed.

Lemma format_asset_link_parts_witness :
  format_asset_link default_exporter (py "img/a.png")
  <> format_asset_link default_exporter (py "img/b.png").
Proof.
  destruct (format_asset_link_parts default_exporter)
    as (opening & closing & _ & Hinj & _).
  apply Hinj. discriminate.
Defined.

(** ** The timestamp of the heading and the suffix of the name *)

Section Stamp.
Context `{RT : PyRuntime} `{FS : FileSystem}.

(** X9. A timestamp that is not empty and is well formed gives the same
    text in the answer heading and in the file name: [format_date] returns
    the timestamp in the configured format, and the Namer takes that very
    text as its suffix, without reading the clock. *)
Theorem format_date_is_suffix (self : exporter) (timestamp : pystr)
    (dt : datetime) (w : world) :
  timestamp <> [] -> parse_timestamp timestamp = Ok dt ->
  format_date self timestamp = strftime dt (date_format (self_config self))
  /\ date_suffix_of self timestamp w = (Ok (format_date self timestamp), w).
Proof.
  intros Hne Hdt. unfold format_date, date_suffix_of, mbind, M_bind, lift.
  destruct timestamp as [|c ts]; [congruence|]. rewrite Hdt. split; reflexivity.
Qed.

End Stamp.

Lemma format_date_is_suffix_witness :
  format_date (RT := Reference.runtime) default_exporter (py "2024-05-06T07:08:09Z")
  = py "20240506T070809"
  /\ date_suffix_of (RT := Reference.runtime) (FS := MemFS.file_system)
       default_exporter (py "2024-05-06T07:08:09Z") MemFS.empty_world
     = (Ok (format_date (RT := Reference.runtime) default_exporter
              (py "2024-05-06T07:08:09Z")), MemFS.empty_world).
Proof.
  destruct (format_date_is_suffix (RT := Reference.runtime)
              (FS := MemFS.file_system) default_exporter
              (py "2024-05-06T07:08:09Z")
              (Reference.DateTime 2024 5 6 7 8 9 0 (Some (true, 0, 0)))
              MemFS.empty_world) as [Hfmt Hsuffix];
    [discriminate | vm_compute; reflexivity |].
  split; [rewrite Hfmt; vm_compute; reflexivity | exact Hsuffix].
Defined.

(** ** What a run takes from the configuration *)

Lemma sanitize_filename_max_length c1 c2 title reserve :
  max_length c1 = max_length c2 ->
  sanitize_filename c1 title reserve = sanitize_filename c2 title reserve.
Proof. intros H. unfold sanitize_filename. rewrite H. reflexivity. Qed.

Section Settings.
Context `{RT : PyRuntime} `{FS : FileSystem}.

Lemma date_suffix_of_settings self1 self2 created_at w :
  same_exporter self1 self2 ->
  date_suffix_of self1 created_at w = date_suffix_of self2 created_at w.
Proof.
  intros [(_ & _ & Hfmt & _ & _) _]. unfold date_suffix_of. rewrite Hfmt. reflexivity.
Qed.

Lemma generate_unique_filename_settings self1 self2 title created_at dir w :
  same_exporter self1 self2 ->
  generate_unique_filename self1 title created_at dir w
  = generate_unique_filename self2 title created_at dir w.
Proof.
  intros Hsame. rewrite !generate_unique_filename_steps.
  rewrite (date_suffix_of_settings self1 self2 created_at w Hsame).
  destruct Hsame as [(Hmax & Happ & _ & _ & _) _].
  destruct (date_suffix_of self2 created_at w) as [[suffix|e] w1]; [|reflexivity].
  unfold suffixed_filename. rewrite Happ.
  rewrite !(sanitize_filename_max_length _ _ title _ Hmax). reflexivity.
Qed.

Lemma format_date_settings self1 self2 ts :
  same_exporter self1 self2 -> format_date self1 ts = format_date self2 ts.
Proof.
  intros [(_ & _ & Hfmt & _ & _) _]. unfold format_date. rewrite Hfmt. reflexivity.
Qed.

Lemma entry_lines_settings self1 self2 mode entry :
  same_exporter self1 self2 ->
  entry_lines self1 mode entry = entry_lines self2 mode entry.
Proof.
  intros Hsame. unfold entry_lines, answer_heading.
  rewrite (format_date_settings self1 self2 _ Hsame). reflexivity.
Qed.

Lemma create_markdown_settings self1 self2 conv :
  same_exporter self1 self2 ->
  create_markdown self1 conv = create_markdown self2 conv.
Proof.
  intros Hsame. unfold create_markdown.
  destruct (metadata_date _) as [date_str|e]; [|reflexivity]. cbn [result_bind].
  destruct Hsame as [Hset Hdate]. rewrite Hdate. do 4 f_equal.
  apply map_ext. intros entry. apply entry_lines_settings. split; assumption.
Qed.

Lemma get_collection_name_settings self1 self2 uuid :
  same_exporter self1 self2 ->
  get_collection_name self1 uuid = get_collection_name self2 uuid.
Proof.
  intros [(_ & _ & _ & Hcol & _) _]. unfold get_collection_name.
  rewrite Hcol. reflexivity.
Qed.

Lemma export_conversation_settings self1 self2 output_base conv w :
  same_exporter self1 self2 ->
  export_conversation self1 output_base conv w
  = export_conversation self2 output_base conv w.
Proof.
  intros Hsame. rewrite !export_conversation_steps. cbv zeta.
  unfold collection_dir_of.
  rewrite (get_collection_name_settings self1 self2 _ Hsame).
  destruct (mkdir _ w) as [[[]|e] w1]; [|reflexivity].
  rewrite (generate_unique_filename_settings self1 self2 _ _ _ _ Hsame).
  rewrite (create_markdown_settings self1 self2 conv Hsame). reflexivity.
Qed.

Lemma process_conversations_settings self1 self2 output_base convs st w :
  same_exporter self1 self2 ->
  process_conversations self1 output_base convs st w
  = process_conversations self2 output_base convs st w.
Proof.
  intros Hsame. revert st w. induction convs as [|conv rest IH]; intros st w;
    [reflexivity|].
  rewrite !process_conversations_cons. unfold process_conversation.
  rewrite (export_conversation_settings self1 self2 _ _ _ Hsame). apply IH.
Qed.

Lemma run_settings self1 self2 json w :
  same_exporter self1 self2 -> run self1 json w = run self2 json w.
Proof.
  intros Hsame. unfold run, process_json_export.
  destruct json as [| |data]; [reflexivity| |].
  - destruct Hsame as [(_ & _ & _ & _ & Hbase) _]. rewrite Hbase. reflexivity.
  - rewrite (proj2 (proj2 (proj2 (proj2 (proj1 Hsame))))).
    destruct (mkdir _ w) as [[[]|e] w1]; [|reflexivity].
    rewrite (process_conversations_settings self1 self2 _ _ _ _ Hsame). reflexivity.
Qed.

(** X10. A run takes five settings from the configuration, each with its
    default when the key is absent: the maximal length, the flag and the
    format of the date, the table of the collections and the output
    directory. Two configurations that agree on them give the same run,
    whatever the input and the state of the world. The defaults written in
    [_default_config] are those applied where the settings are read: a
    missing or unreadable configuration file gives the run of an empty
    one. *)
Theorem main_settings :
  (forall c1 c2 json w,
     same_settings c1 c2 -> main c1 json w = main c2 json w)
  /\ (forall json w,
        main (load_config ConfigAbsent) json w
        = main (load_config (ConfigParsed empty_config)) json w
        /\ main (load_config ConfigInvalid) json w
           = main (load_config (ConfigParsed empty_config)) json w).
Proof.
  assert (Hmain : forall c1 c2 json w,
            same_settings c1 c2 -> main c1 json w = main c2 json w).
  { intros c1 c2 json w Hsame. unfold main. rewrite !init_exporter.
    apply run_settings. split; [exact Hsame | reflexivity]. }
  split; [exact Hmain|].
  intros json w. split; apply Hmain; repeat split.
Qed.

End Settings.

Lemma main_settings_witness :
  main (RT := Reference.runtime) (FS := MemFS.file_system) default_config
    (Loaded (Some [conv_rust])) MemFS.empty_world
  = main (RT := Reference.runtime) (FS := MemFS.file_system)
      {| filename_max_length := None; filename_append_date := Some false;
         filename_date_format := None; assets_location := Some (py "img");
         assets_relative_to_markdown := None; output_base_dir := None;
         output_wikilinks := Some true; collections := None |}
      (Loaded (Some [conv_rust])) MemFS.empty_world.
Proof.
  apply (proj1 (main_settings (RT := Reference.runtime) (FS := MemFS.file_system))).
  unfold same_settings. repeat split.
Defined.

(** ** The calls and the errors of the loop *)

Section LoopCalls.
Context `{RT : PyRuntime} `{FS : FileSystem}.







End LoopCalls.

(** ** Names and paths *)

Lemma join_app sep (a b : list pystr) :
  a <> [] -> b <> [] -> join sep (a ++ b) = join sep a ++ sep ++ join sep b.
Proof.
  intros Ha Hb. induction a as [|l a IH]; [congruence|].
  destruct a as [|l' a].
  - destruct b as [|l' b]; [congruence | reflexivity].
  - cbn [app] in *. rewrite !join_cons_cons, IH by discriminate.
    rewrite <- !app_assoc. reflexivity.
Qed.

Lemma filename_char_no_slash s :
  Forall (fun c => filename_char c = true) s -> Ch.slash ∉ s.
Proof.
  intros Hs Hin. rewrite Forall_forall in Hs. specialize (Hs _ Hin). discriminate.
Qed.

Section Names.
Context `{RT : PyRuntime} `{FS : FileSystem}.

Lemma date_suffix_of_given self c ts w :
  date_suffix_of self (c :: ts) w
  = (result_bind (parse_timestamp (c :: ts))
       (fun dt => Ok (strftime dt (date_format (self_config self)))), w).
Proof.
  unfold date_suffix_of, mbind, M_bind, lift.
  destruct (parse_timestamp (c :: ts)); reflexivity.
Qed.

(** X13. A name with a timestamp suffix is not checked against the
    directory. With [append_date] and a timestamp of its own, the name of a
    conversation is the same in every directory and every state of the file
    system and of the clock; and without [append_date], once the plain name
    is taken, the suffixed name is the same whatever else the directory
    holds. Two conversations with the same title and the same timestamp so
    get the same name, and the file of the first is written over. *)
Theorem generate_unique_filename_unchecked (self : exporter)
    (title created_at : pystr) (dir1 dir2 : path) (w1 w2 : world) :
  created_at <> [] ->
  (append_date (self_config self) = true ->
   (generate_unique_filename self title created_at dir1 w1).1
   = (generate_unique_filename self title created_at dir2 w2).1)
  /\ (append_date (self_config self) = false ->
      fs_exists (disk w1)
        (path_div dir1 (sanitize_filename (self_config self) title 0 ++ py ".md"))
      = true ->
      fs_exists (disk w2)
        (path_div dir2 (sanitize_filename (self_config self) title 0 ++ py ".md"))
      = true ->
      (generate_unique_filename self title created_at dir1 w1).1
      = (generate_unique_filename self title created_at dir2 w2).1).
Proof.
  intros Hne. destruct created_at as [|c ts]; [congruence|].
  rewrite !generate_unique_filename_steps, !date_suffix_of_given.
  split.
  - intros Happ. rewrite Happ. destruct (parse_timestamp (c :: ts)); reflexivity.
  - intros Happ H1 H2. rewrite Happ, H1, H2.
    destruct (parse_timestamp (c :: ts)); reflexivity.
Qed.

(** X14. The name of a file is one path component ending in [.md]: when
    the timestamp suffix holds no slash, as with the default date format,
    the generated name is a stem that is not empty followed by [.md], and
    joining it to the directory gives the entry of that name in the
    directory. *)
Theorem generate_unique_filename_component (self : exporter)
    (title created_at : pystr) (dir : path) (w w1 : world) (date_suffix : pystr) :
  date_suffix_of self created_at w = (Ok date_suffix, w1) ->
  Ch.slash ∉ date_suffix ->
  exists stem,
    generate_unique_filename self title created_at dir w
    = (Ok (stem ++ py ".md"), w1)
    /\ stem <> []
    /\ path_div dir (stem ++ py ".md") = dir ++ [stem ++ py ".md"].
Proof.
  intros Hsuffix Hslash. rewrite generate_unique_filename_steps, Hsuffix.
  assert (Hstem : forall stem, stem <> [] -> Ch.slash ∉ stem ->
                    path_div dir (stem ++ py ".md") = dir ++ [stem ++ py ".md"]).
  { intros stem Hne Hno. apply path_div_name.
    - intros [Hin | Hin]%elem_of_app; [contradiction|].
      vm_compute in Hin.
      repeat (apply elem_of_cons in Hin as [Hin | Hin]; [discriminate|]).
      inversion Hin.
    - destruct stem; [congruence | discriminate].
    - destruct stem as [|c [|c' stem]]; [congruence | discriminate | discriminate]. }
  assert (Hbase : forall reserve,
            sanitize_filename (self_config self) title reserve <> []
            /\ Ch.slash ∉ sanitize_filename (self_config self) title reserve).
  { intros reserve. split; [apply sanitize_filename_nonempty|].
    apply filename_char_no_slash, sanitize_filename_chars. }
  assert (Hsuffixed : forall reserve,
            exists stem,
              suffixed_filename self title reserve date_suffix = stem ++ py ".md"
              /\ stem <> []
              /\ path_div dir (stem ++ py ".md") = dir ++ [stem ++ py ".md"]).
  { intros reserve. destruct (Hbase reserve) as [Hne Hno].
    exists (sanitize_filename (self_config self) title reserve
            ++ py "-" ++ date_suffix).
    split; [unfold suffixed_filename; rewrite <- !app_assoc; reflexivity|].
    assert (Hne' : sanitize_filename (self_config self) title reserve
                   ++ py "-" ++ date_suffix <> [])
      by (destruct (sanitize_filename _ _ _); [congruence | discriminate]).
    split; [exact Hne'|]. apply Hstem; [exact Hne'|].
    intros [Hin | [Hin | Hin]%elem_of_app]%elem_of_app; [contradiction | | contradiction].
    apply list_elem_of_singleton in Hin. discriminate. }
  destruct (append_date (self_config self)).
  - destruct (Hsuffixed (Z.of_nat (length date_suffix) + 1)%Z) as (stem & -> & H).
    exists stem. split; [reflexivity | exact H].
  - destruct (fs_exists _ _).
    + destruct (Hsuffixed (Z.of_nat (length date_suffix) + 1 + 15)%Z)
        as (stem & -> & H).
      exists stem. split; [reflexivity | exact H].
    + destruct (Hbase 0%Z) as [Hne Hno].
      exists (sanitize_filename (self_config self) title 0).
      split; [reflexivity|]. split; [exact Hne | apply Hstem; assumption].
Qed.

End Names.

Lemma generate_unique_filename_unchecked_witness :
  let taken :=
    (write_text (FS := MemFS.file_system) [py "a"; py "Plan.md"] (py "first")
       (mkdir (FS := MemFS.file_system) [py "a"] MemFS.empty_world).2).2 in
  let crowded :=
    (write_text (FS := MemFS.file_system)
       [py "a"; py "Plan-20240506T070809.md"] (py "second")
       (advance taken)).2 in
  (generate_unique_filename (RT := Reference.runtime) (FS := MemFS.file_system)
     dated_exporter (py "Plan") (py "2024-05-06T07:08:09Z") [py "a"]
     MemFS.empty_world).1
  = (generate_unique_filename (RT := Reference.runtime) (FS := MemFS.file_system)
       dated_exporter (py "Plan") (py "2024-05-06T07:08:09Z") [py "a"] crowded).1
  /\ (generate_unique_filename (RT := Reference.runtime) (FS := MemFS.file_system)
        default_exporter (py "Plan") (py "2024-05-06T07:08:09Z") [py "a"] taken).1
     = (generate_unique_filename (RT := Reference.runtime) (FS := MemFS.file_system)
          default_exporter (py "Plan") (py "2024-05-06T07:08:09Z") [py "a"]
          crowded).1.
Proof.
  cbv zeta. split.
  - refine (proj1 (generate_unique_filename_unchecked (RT := Reference.runtime)
                     (FS := MemFS.file_system) dated_exporter _ _ _ _ _ _ _) _);
      [discriminate | reflexivity].
  - refine (proj2 (generate_unique_filename_unchecked (RT := Reference.runtime)
                     (FS := MemFS.file_system) default_exporter _ _ _ _ _ _ _) _ _ _);
      [discriminate | reflexivity | vm_compute; reflexivity | vm_compute; reflexivity].
Defined.

Lemma generate_unique_filename_component_witness :
  exists stem,
    generate_unique_filename (RT := Reference.runtime) (FS := MemFS.file_system)
      dated_exporter (py "a/b: c") (py "2024-05-06T07:08:09Z") [py "out"]
      MemFS.empty_world
    = (Ok (stem ++ py ".md"), MemFS.empty_world)
    /\ stem <> []
    /\ path_div [py "out"] (stem ++ py ".md") = [py "out"] ++ [stem ++ py ".md"].
Proof.
  apply (generate_unique_filename_component (RT := Reference.runtime)
           (FS := MemFS.file_system) dated_exporter (py "a/b: c")
           (py "2024-05-06T07:08:09Z") [py "out"] MemFS.empty_world
           MemFS.empty_world (py "20240506T070809")).
  - vm_compute. reflexivity.
  - intros Hin. vm_compute in Hin.
    repeat (apply elem_of_cons in Hin as [Hin | Hin]; [discriminate|]).
    inversion Hin.
Defined.

(** ** The directory of a collection *)




(** ** The entries of a rendering *)

Section Entries.
Context `{RT : PyRuntime}.

(** X16. The entries are rendered in their order, each after what comes
    before it: the rendering of a conversation with one more entry at the
    end is the rendering without it, a line feed, and the four lines of that
    entry, the query as it is among them; and a conversation without the
    key [entries] is rendered like one with an empty list. *)
Theorem create_markdown_append (self : exporter) (fields : jobject)
    (entries : list jobject) (entry : jobject) (content : pystr) :
  (create_markdown self {| conv_fields := fields; conv_entries := Some entries |}
   = Ok content ->
   create_markdown self
     {| conv_fields := fields; conv_entries := Some (entries ++ [entry]) |}
   = Ok (content ++ [Ch.nl]
         ++ join [Ch.nl]
              [ Ch.nl :: py "# Query";
                default [] (entry !! "query");
                Ch.nl :: answer_heading self
                           (default (py "UNKNOWN") (fields !! "mode")) entry;
                clean_answer (default [] (entry !! "answer")) ]))
  /\ create_markdown self {| conv_fields := fields; conv_entries := None |}
     = create_markdown self {| conv_fields := fields; conv_entries := Some [] |}.
Proof.
  split; [|reflexivity].
  unfold create_markdown. cbn [conv_fields conv_entries].
  change (default [] (Some (entries ++ [entry]))) with (entries ++ [entry]).
  change (default [] (Some entries)) with entries.
  destruct (metadata_date _) as [date_str|e]; [|discriminate].
  cbn [result_bind]. intros Hcontent.
  assert (Hc : content
               = join [Ch.nl]
                   ([ py "---"; py "Date: " ++ date_str;
                      py "title: "
                      ++ sanitize_text
                           (default (py "Untitled") (fields !! "context_title")) true;
                      py "export date: " ++ export_date self; py "---" ]
                    ++ concat (map (entry_lines self
                                      (default (py "UNKNOWN") (fields !! "mode")))
                                 entries)))
    by congruence.
  rewrite Hc. f_equal.
  rewrite map_app, concat_app, app_assoc. cbn [map concat]. rewrite app_nil_r.
  rewrite join_app; [reflexivity | discriminate | discriminate].
Qed.

End Entries.

Lemma create_markdown_append_witness :
  create_markdown (RT := Reference.runtime) default_exporter
    {| conv_fields := {[ "context_title" := py "T" ]};
       conv_entries := Some ([] ++ [ ({[ "query" := py "why?" ]} : jobject) ]) |}
  = Ok (join [Ch.nl] [py "---"; py "Date: Unknown"; py "title: T";
                      py "export date: 2025-01-15"; py "---"]
        ++ [Ch.nl]
        ++ join [Ch.nl]
             [ Ch.nl :: py "# Query"; py "why?";
               Ch.nl :: py "# Answer (unknown)"; [] ]).
Proof.
  destruct (create_markdown_append (RT := Reference.runtime) default_exporter
              {[ "context_title" := py "T" ]} []
              ({[ "query" := py "why?" ]} : jobject)
              (join [Ch.nl] [py "---"; py "Date: Unknown"; py "title: T";
                             py "export date: 2025-01-15"; py "---"]))
    as [Happend _].
  rewrite Happend; [vm_compute; reflexivity | vm_compute; reflexivity].
Defined.
